(** * Slop Pomodoro: the timer state machine and the dial's angle mapping

    A shallow embedding of the session state machine of [App.tsx]
    (the handlers [tick], [switchMode], [toggleTimer], [resetTimer],
    [skipTimer], [openConfig], [closeConfig], [updateDuration],
    [clearStats] and the initial state), of the angle mapping of
    [components/ConfigDial.tsx] and of the submit handler of
    [components/TimeInputModal.tsx].

    Conventions of the embedding:
    - a JavaScript [number] that holds an integer is a [Z], and [NaN]
      (the result of [parseInt] on text that has no leading digits) is
      [JS.NaN], so a number is [JS.Num z] or [JS.NaN].  The arithmetic
      and the printing of [JS.Num] are those of the code for integers
      up to [Number.MAX_SAFE_INTEGER = 2^53 - 1]; beyond it the code
      rounds, prints in exponent form (from [1e21]) and overflows to
      [Infinity], which the model does not follow.  Statements about
      numbers that the user chooses freely are therefore made within
      that range ([MAX_SAFE_INTEGER], [eventExact], [storeExact]);
    - [localStorage] is a finite map from key strings to value strings;
    - a React functional update [setState(prev => next)] is the function
      [prev -> next], applied in program order;
    - the audio/vibration/notification calls are recorded in a log
      ([alerts]); the interval handle and the DOM are not modelled. *)

From Stdlib Require Import ZArith QArith Qround String Ascii List Bool Lia.
From Stdlib Require Import DecimalString DecimalPos DecimalZ.
From stdpp Require Import base gmap strings.

Local Open Scope string_scope.
Local Open Scope Z_scope.

(** ** JavaScript numbers, as far as the program uses them *)

Module JS.

Inductive number : Type :=
| Num (z : Z)
| NaN.

Definition number_eq_dec (a b : number) : {a = b} + {a <> b}.
Proof. decide equality; apply Z.eq_dec. Defined.

(** [a + b], [a - b], [a * b] on integers: exact, as the code's are
    while the result stays within [2^53 - 1] *)
Definition add (a b : number) : number :=
  match a, b with Num x, Num y => Num (x + y) | _, _ => NaN end.
Definition sub (a b : number) : number :=
  match a, b with Num x, Num y => Num (x - y) | _, _ => NaN end.
Definition mul (a b : number) : number :=
  match a, b with Num x, Num y => Num (x * y) | _, _ => NaN end.

(** [Math.floor(a / k)] for a positive integer constant [k] *)
Definition floorDiv (a : number) (k : Z) : number :=
  match a with Num x => Num (x / k) | NaN => NaN end.

(** [a <= b], [a < b], [a > b], [a === b]: every comparison with
    [NaN] is false *)
Definition leb (a b : number) : bool :=
  match a, b with Num x, Num y => x <=? y | _, _ => false end.
Definition ltb (a b : number) : bool :=
  match a, b with Num x, Num y => x <? y | _, _ => false end.
Definition gtb (a b : number) : bool := ltb b a.
Definition strictEq (a b : number) : bool :=
  match a, b with Num x, Num y => x =? y | _, _ => false end.

Definition isNaN (a : number) : bool :=
  match a with NaN => true | Num _ => false end.

(** [n.toString()]: plain decimal digits, as the code prints an integer
    of magnitude below [1e21] *)
Definition toString (a : number) : string :=
  match a with
  | Num z => NilZero.string_of_int (Z.to_int z)
  | NaN => "NaN"
  end.

(** [b.toString()] for a boolean *)
Definition boolToString (b : bool) : string :=
  if b then "true" else "false".

(** White space skipped by [parseInt], within ASCII: TAB, LF, VT, FF,
    CR, SP. *)
Definition isWhiteSpace (c : ascii) : bool :=
  let n := N_of_ascii c in
  ((9 <=? n)%N && (n <=? 13)%N) || (n =? 32)%N.

Fixpoint trimStart (s : string) : string :=
  match s with
  | String c s' => if isWhiteSpace c then trimStart s' else s
  | EmptyString => s
  end.

Definition digitOf (c : ascii) : option Z :=
  let n := Z.of_N (N_of_ascii c) in
  if (48 <=? n) && (n <=? 57) then Some (n - 48) else None.

(** The value of the longest prefix of decimal digits; [acc] is the
    value read so far, [None] while no digit has been read. *)
Fixpoint digits (s : string) (acc : option Z) : option Z :=
  match s with
  | String c s' =>
      match digitOf c with
      | Some d => digits s' (Some (10 * default 0 acc + d))
      | None => acc
      end
  | EmptyString => acc
  end.

(** [parseInt(s, 10)]: skip leading white space, read an optional
    sign, then the longest run of decimal digits; [NaN] when there is
    no digit. *)
Definition parseInt (s : string) : number :=
  let s1 := trimStart s in
  let '(sign, s2) :=
    match s1 with
    | String c r =>
        if Ascii.eqb c "-" then (-1, r)
        else if Ascii.eqb c "+" then (1, r)
        else (1, s1)
    | EmptyString => (1, s1)
    end in
  match digits s2 None with
  | Some n => Num (sign * n)
  | None => NaN
  end.

End JS.

#[global] Instance number_eq_decision : EqDecision JS.number := JS.number_eq_dec.

(** ** [types.ts] *)

Inductive TimerMode : Type := Focus | Break.

Inductive TimerStatus : Type := Idle | Running | Paused | Alarm.

#[global] Instance TimerMode_eq_decision : EqDecision TimerMode.
Proof. solve_decision. Defined.

#[global] Instance TimerStatus_eq_decision : EqDecision TimerStatus.
Proof. solve_decision. Defined.

Record TimerState : Type := mkTimerState {
  mode : TimerMode;
  status : TimerStatus;
  configOpen : bool;
  duration : JS.number;
  remainingTime : JS.number;
  sessionsCount : JS.number;
  totalFocusTime : JS.number;
  totalBreakTime : JS.number;
  focusCompletedInCurrentCycle : bool
}.

(** ** [App.tsx]: constants and the persistence layer *)

(** [DEFAULTS[mode]], in seconds *)
Definition DEFAULTS (m : TimerMode) : JS.number :=
  match m with
  | Focus => JS.Num (25 * 60)
  | Break => JS.Num (5 * 60)
  end.

(** The property names of [STORAGE_KEYS]; a [TimerMode] indexes the
    first two. *)
Inductive StorageKey : Type :=
| K_focus
| K_break
| K_sessionsCount
| K_totalFocusTime
| K_totalBreakTime
| K_focusCompletedInCurrentCycle.

Definition STORAGE_KEYS (k : StorageKey) : string :=
  match k with
  | K_focus => "pomodoro_focus_duration"
  | K_break => "pomodoro_break_duration"
  | K_sessionsCount => "pomodoro_sessions_count"
  | K_totalFocusTime => "pomodoro_total_focus_time"
  | K_totalBreakTime => "pomodoro_total_break_time"
  | K_focusCompletedInCurrentCycle => "pomodoro_focus_cycle_flag"
  end.

(** [STORAGE_KEYS[mode]] *)
Definition modeKey (m : TimerMode) : StorageKey :=
  match m with Focus => K_focus | Break => K_break end.

(** [localStorage.getItem(key)]: [None] is [null] *)
Definition getItem (ls : gmap string string) (key : string) : option string :=
  ls !! key.

(** [localStorage.setItem(key, value)] *)
Definition setItem (key value : string) (ls : gmap string string)
  : gmap string string :=
  <[key := value]> ls.

(** [saved ? parseInt(saved, 10) : dflt]: [null] and the empty string
    are falsy, every other string is truthy. *)
Definition parseSaved (saved : option string) (dflt : JS.number) : JS.number :=
  match saved with
  | Some (String _ _ as text) => JS.parseInt text
  | Some EmptyString => dflt
  | None => dflt
  end.

Definition getSavedDuration (ls : gmap string string) (m : TimerMode)
  : JS.number :=
  let saved := getItem ls (STORAGE_KEYS (modeKey m)) in
  parseSaved saved (DEFAULTS m).

(** ** [App.tsx]: the component *)

(** Calls into the alert dispatcher, most recent first. *)
Inductive AlertCall : Type :=
| TriggerAlert (finishedMode : TimerMode)
| StopSound.

Record App : Type := mkApp {
  localStorage : gmap string string;
  state : TimerState;
  isInputModalOpen : bool;
  alerts : list AlertCall
}.

(** [setState(prev => f prev)] *)
Definition setState (f : TimerState -> TimerState) (a : App) : App :=
  {| localStorage := localStorage a;
     state := f (state a);
     isInputModalOpen := isInputModalOpen a;
     alerts := alerts a |}.

Definition storeItem (k : StorageKey) (value : string) (a : App) : App :=
  {| localStorage := setItem (STORAGE_KEYS k) value (localStorage a);
     state := state a;
     isInputModalOpen := isInputModalOpen a;
     alerts := alerts a |}.

Definition setIsInputModalOpen (b : bool) (a : App) : App :=
  {| localStorage := localStorage a;
     state := state a;
     isInputModalOpen := b;
     alerts := alerts a |}.

Definition call (c : AlertCall) (a : App) : App :=
  {| localStorage := localStorage a;
     state := state a;
     isInputModalOpen := isInputModalOpen a;
     alerts := c :: alerts a |}.

(** The lazy initialiser of [useState<TimerState>] *)
Definition initialState (ls : gmap string string) : TimerState :=
  let focusDuration := getSavedDuration ls Focus in
  let savedSessions := getItem ls (STORAGE_KEYS K_sessionsCount) in
  let savedFocusTime := getItem ls (STORAGE_KEYS K_totalFocusTime) in
  let savedBreakTime := getItem ls (STORAGE_KEYS K_totalBreakTime) in
  let savedCycleFlag :=
    getItem ls (STORAGE_KEYS K_focusCompletedInCurrentCycle) in
  {| mode := Focus;
     status := Idle;
     configOpen := false;
     duration := focusDuration;
     remainingTime := focusDuration;
     sessionsCount := parseSaved savedSessions (JS.Num 0);
     totalFocusTime := parseSaved savedFocusTime (JS.Num 0);
     totalBreakTime := parseSaved savedBreakTime (JS.Num 0);
     focusCompletedInCurrentCycle :=
       bool_decide (savedCycleFlag = Some "true") |}.

(** The effect that persists the statistics; its body. *)
Definition persistStats (a : App) : App :=
  let s := state a in
  storeItem K_focusCompletedInCurrentCycle
    (JS.boolToString (focusCompletedInCurrentCycle s))
    (storeItem K_totalBreakTime (JS.toString (totalBreakTime s))
       (storeItem K_totalFocusTime (JS.toString (totalFocusTime s))
          (storeItem K_sessionsCount (JS.toString (sessionsCount s)) a))).

(** The dependency list of that effect. *)
Definition statsDeps (s : TimerState)
  : JS.number * JS.number * JS.number * bool :=
  (sessionsCount s, totalFocusTime s, totalBreakTime s,
   focusCompletedInCurrentCycle s).

(** After a render the effect runs when a dependency has changed. *)
Definition runEffects (before : TimerState) (a : App) : App :=
  if decide (statsDeps before = statsDeps (state a)) then a
  else persistStats a.

(** First render: the state is built from the store and every effect
    runs once. *)
Definition mount (ls : gmap string string) : App :=
  persistStats
    {| localStorage := ls;
       state := initialState ls;
       isInputModalOpen := false;
       alerts := [] |}.

Definition triggerAlert (finishedMode : TimerMode) (a : App) : App :=
  call (TriggerAlert finishedMode) a.

Definition stopSound (a : App) : App := call StopSound a.

Definition switchMode (a : App) : App :=
  setState (fun prev =>
    let newMode := match mode prev with Focus => Break | Break => Focus end in
    let newDuration := getSavedDuration (localStorage a) newMode in
    {| mode := newMode;
       status := Idle;
       configOpen := configOpen prev;
       duration := newDuration;
       remainingTime := newDuration;
       sessionsCount := sessionsCount prev;
       totalFocusTime := totalFocusTime prev;
       totalBreakTime := totalBreakTime prev;
       focusCompletedInCurrentCycle := focusCompletedInCurrentCycle prev |}) a.

(** The state computed by the updater of [tick] *)
Definition tickState (prev : TimerState) : TimerState :=
  if JS.leb (remainingTime prev) (JS.Num 1) then
    let isFocusFinish := bool_decide (mode prev = Focus) in
    let '(newSessionsCount, newFocusCompletedFlag) :=
      if isFocusFinish then (sessionsCount prev, true)
      else if focusCompletedInCurrentCycle prev
           then (JS.add (sessionsCount prev) (JS.Num 1), false)
           else (sessionsCount prev, focusCompletedInCurrentCycle prev) in
    {| mode := mode prev;
       status := Alarm;
       configOpen := configOpen prev;
       duration := duration prev;
       remainingTime := JS.Num 0;
       sessionsCount := newSessionsCount;
       totalFocusTime :=
         if isFocusFinish
         then JS.add (totalFocusTime prev) (JS.floorDiv (duration prev) 60)
         else totalFocusTime prev;
       totalBreakTime :=
         if negb isFocusFinish
         then JS.add (totalBreakTime prev) (JS.floorDiv (duration prev) 60)
         else totalBreakTime prev;
       focusCompletedInCurrentCycle := newFocusCompletedFlag |}
  else
    {| mode := mode prev;
       status := status prev;
       configOpen := configOpen prev;
       duration := duration prev;
       remainingTime := JS.sub (remainingTime prev) (JS.Num 1);
       sessionsCount := sessionsCount prev;
       totalFocusTime := totalFocusTime prev;
       totalBreakTime := totalBreakTime prev;
       focusCompletedInCurrentCycle := focusCompletedInCurrentCycle prev |}.

(** [tick]: on the branch that reaches zero the updater also calls
    [triggerAlert(prev.mode)]. *)
Definition tick (a : App) : App :=
  let prev := state a in
  let a' :=
    if JS.leb (remainingTime prev) (JS.Num 1)
    then triggerAlert (mode prev) a else a in
  setState tickState a'.

Definition toggleTimer (a : App) : App :=
  if bool_decide (status (state a) = Alarm) then
    switchMode (stopSound a)
  else
    setState (fun prev =>
      {| mode := mode prev;
         status :=
           if bool_decide (status prev = Running) then Paused else Running;
         configOpen := false;
         duration := duration prev;
         remainingTime := remainingTime prev;
         sessionsCount := sessionsCount prev;
         totalFocusTime := totalFocusTime prev;
         totalBreakTime := totalBreakTime prev;
         focusCompletedInCurrentCycle :=
           focusCompletedInCurrentCycle prev |}) a.

Definition resetTimer (a : App) : App :=
  let a1 :=
    if bool_decide (status (state a) = Alarm) then stopSound a else a in
  let prev := state a1 in
  if configOpen prev then
    let factoryDefault := DEFAULTS (mode prev) in
    let a2 := storeItem (modeKey (mode prev)) (JS.toString factoryDefault) a1 in
    setState (fun prev =>
      {| mode := mode prev;
         status := Idle;
         configOpen := configOpen prev;
         duration := factoryDefault;
         remainingTime := factoryDefault;
         sessionsCount := sessionsCount prev;
         totalFocusTime := totalFocusTime prev;
         totalBreakTime := totalBreakTime prev;
         focusCompletedInCurrentCycle := false |}) a2
  else
    setState (fun prev =>
      {| mode := mode prev;
         status := Idle;
         configOpen := configOpen prev;
         duration := duration prev;
         remainingTime := duration prev;
         sessionsCount := sessionsCount prev;
         totalFocusTime := totalFocusTime prev;
         totalBreakTime := totalBreakTime prev;
         focusCompletedInCurrentCycle := false |}) a1.

Definition skipTimer (a : App) : App :=
  let a1 :=
    setState (fun prev =>
      {| mode := mode prev;
         status := status prev;
         configOpen := configOpen prev;
         duration := duration prev;
         remainingTime := remainingTime prev;
         sessionsCount := sessionsCount prev;
         totalFocusTime := totalFocusTime prev;
         totalBreakTime := totalBreakTime prev;
         focusCompletedInCurrentCycle := false |}) a in
  switchMode a1.

Definition openConfig (a : App) : App :=
  setState (fun prev =>
    {| mode := mode prev;
       status := Paused;
       configOpen := true;
       duration := duration prev;
       remainingTime := duration prev;
       sessionsCount := sessionsCount prev;
       totalFocusTime := totalFocusTime prev;
       totalBreakTime := totalBreakTime prev;
       focusCompletedInCurrentCycle := focusCompletedInCurrentCycle prev |}) a.

Definition closeConfig (a : App) : App :=
  setState (fun prev =>
    {| mode := mode prev;
       status := status prev;
       configOpen := false;
       duration := duration prev;
       remainingTime := remainingTime prev;
       sessionsCount := sessionsCount prev;
       totalFocusTime := totalFocusTime prev;
       totalBreakTime := totalBreakTime prev;
       focusCompletedInCurrentCycle := focusCompletedInCurrentCycle prev |}) a.

Definition updateDuration (newMinutes : JS.number) (a : App) : App :=
  let newSeconds :=
    if JS.strictEq newMinutes (JS.Num 0) then JS.Num 1
    else JS.mul newMinutes (JS.Num 60) in
  let a1 :=
    storeItem (modeKey (mode (state a)))
      (JS.toString (JS.mul newMinutes (JS.Num 60))) a in
  setState (fun prev =>
    {| mode := mode prev;
       status := Idle;
       configOpen := configOpen prev;
       duration := newSeconds;
       remainingTime := newSeconds;
       sessionsCount := sessionsCount prev;
       totalFocusTime := totalFocusTime prev;
       totalBreakTime := totalBreakTime prev;
       focusCompletedInCurrentCycle := false |}) a1.

Definition clearStats (a : App) : App :=
  let a1 :=
    setState (fun prev =>
      {| mode := mode prev;
         status := status prev;
         configOpen := configOpen prev;
         duration := duration prev;
         remainingTime := remainingTime prev;
         sessionsCount := JS.Num 0;
         totalFocusTime := JS.Num 0;
         totalBreakTime := JS.Num 0;
         focusCompletedInCurrentCycle := false |}) a in
  storeItem K_focusCompletedInCurrentCycle "false"
    (storeItem K_totalBreakTime "0"
       (storeItem K_totalFocusTime "0"
          (storeItem K_sessionsCount "0" a1))).

(** [onConfirm] as [App] passes it to the modal *)
Definition onConfirm (mins : JS.number) (a : App) : App :=
  setIsInputModalOpen false (updateDuration mins a).

(** ** The component as a transition system *)

Inductive Event : Type :=
| EToggle
| ETick
| ESwitchMode
| ESkip
| EReset
| EOpenConfig
| ECloseConfig
| EUpdateDuration (newMinutes : JS.number)
| EClearStats
| EReload.

Definition handle (e : Event) (a : App) : App :=
  match e with
  | EToggle => toggleTimer a
  | ETick => tick a
  | ESwitchMode => switchMode a
  | ESkip => skipTimer a
  | EReset => resetTimer a
  | EOpenConfig => openConfig a
  | ECloseConfig => closeConfig a
  | EUpdateDuration m => updateDuration m a
  | EClearStats => clearStats a
  | EReload => mount (localStorage a)
  end.

(** One event: the handler, then the render's effects. *)
Definition step (a : App) (e : Event) : App :=
  runEffects (state a) (handle e a).

(** The app after a sequence of events, started on the store [ls]. *)
Definition run (ls : gmap string string) (es : list Event) : App :=
  fold_left step es (mount ls).

(** The callers of [updateDuration] (the dial and the modal) pass a
    non-negative integer; the other events carry no data. *)
Definition eventOk (e : Event) : bool :=
  match e with
  | EUpdateDuration m => JS.leb (JS.Num 0) m
  | _ => true
  end.

(** ** [components/ConfigDial.tsx]: the angle mapping *)

Module ConfigDial.

(** [Math.round]: the nearest integer, halves rounded up.  An angle is
    a rational number of degrees. *)
Definition round (x : Q) : Z := Qfloor (x + (1 # 2)).

(** [Math.min(Math.max(mins, lo), hi)] *)
Definition clamp (lo hi mins : Z) : Z := Z.min (Z.max mins lo) hi.

(** [mins % 60] is the remainder that takes the sign of [mins]. *)
Definition getAngleForMinutes (mins : Z) : Z := Z.rem mins 60 * 6.

Section Closure.

(** The two constants the component computes from its [mode]. *)
Variables minVal maxVal : Z.

Definition getMinutesForAngle (angle : Q) : Z :=
  let mins := round (angle / 6) in
  let mins := if mins =? 0 then 60 else mins in
  clamp minVal maxVal mins.

End Closure.

Definition minVal (m : TimerMode) : Z :=
  if bool_decide (m = Focus) then 5 else 1.

Definition maxVal (m : TimerMode) : Z :=
  if bool_decide (m = Focus) then 60 else 30.

(** The mapping as the component for [m] sees it. *)
Definition minutesForAngle (m : TimerMode) (angle : Q) : Z :=
  getMinutesForAngle (minVal m) (maxVal m) angle.

End ConfigDial.

(** ** [components/TimeInputModal.tsx]: manual entry *)

Module TimeInputModal.

Record Modal : Type := mkModal {
  value : string;
  error : option string;
  clickCount : nat
}.

Definition min (m : TimerMode) : Z :=
  if bool_decide (m = Focus) then 5 else 1.

Definition max (m : TimerMode) : Z :=
  if bool_decide (m = Focus) then 60 else 30.

(** The initial values of the three [useState] cells *)
Definition initial (m : TimerMode) : Modal :=
  {| value := if bool_decide (m = Focus) then "25" else "5";
     error := None;
     clickCount := 0 |}.

Definition isEasterEggActive (md : Modal) : bool :=
  (6 <=? clickCount md)%nat.

Definition setError (e : option string) (md : Modal) : Modal :=
  {| value := value md; error := e; clickCount := clickCount md |}.

Definition handleTitleClick (md : Modal) : Modal :=
  {| value := value md; error := error md;
     clickCount := (clickCount md + 1)%nat |}.

(** The input's [onChange] *)
Definition onChange (text : string) (md : Modal) : Modal :=
  {| value := text; error := None; clickCount := clickCount md |}.

Definition boundsMessage (m : TimerMode) : string :=
  "Value between " ++ JS.toString (JS.Num (min m)) ++ " and "
    ++ JS.toString (JS.Num (max m)).

Section Submit.

(** The parent component's state and the [onConfirm] prop. *)
Context {Parent : Type}.
Variable onConfirm : JS.number -> Parent -> Parent.

Definition handleSubmit (m : TimerMode) (md : Modal) (p : Parent)
  : Modal * Parent :=
  let mins := JS.parseInt (value md) in
  if negb (isEasterEggActive md)
     && (JS.isNaN mins || JS.ltb mins (JS.Num (min m))
         || JS.gtb mins (JS.Num (max m)))
  then (setError (Some (boundsMessage m)) md, p)
  else if isEasterEggActive md && (JS.isNaN mins || JS.ltb mins (JS.Num 0))
  then (setError (Some "Enter a valid number") md, p)
  else (md, onConfirm mins p).

End Submit.

(** What the validation lets through, in the words of the component's
    documentation: an integer within the mode's bounds, or any
    non-negative integer once the easter egg is active. *)
Definition accepted (m : TimerMode) (md : Modal) (n : Z) : Prop :=
  JS.parseInt (value md) = JS.Num n /\
  if isEasterEggActive md then 0 <= n else min m <= n <= max m.

(** The value handed to [onConfirm] when a submit confirms: the handler
    run with a parent that only records the call. *)
Definition confirmed (m : TimerMode) (md : Modal) : option JS.number :=
  snd (handleSubmit (fun mins _ => Some mins) m md None).

End TimeInputModal.

(** ** [components/Controls.tsx]: what the control panel renders *)

Module Controls.

(** The [title] of the main button *)
Definition toggleTitle (s : TimerState) : string :=
  let isRunning := bool_decide (status s = Running) in
  let isAlarm := bool_decide (status s = Alarm) in
  if isAlarm then "Acknowledge" else if isRunning then "Pause" else "Start".

(** The skip button is replaced by a placeholder during an alarm. *)
Definition skipRendered (s : TimerState) : bool :=
  negb (bool_decide (status s = Alarm)).

End Controls.

(** ** [components/CircularTimer.tsx]: the clock face *)

Module CircularTimer.

(** [a % k] for a positive integer constant [k]: the remainder takes the
    sign of [a]. *)
Definition remainder (a : JS.number) (k : Z) : JS.number :=
  match a with JS.Num x => JS.Num (Z.rem x k) | JS.NaN => JS.NaN end.

(** [t.padStart(2, '0')] *)
Definition padStart2 (t : string) : string :=
  match t with
  | EmptyString => "00"
  | String c EmptyString => String "0" (String c EmptyString)
  | _ => t
  end.

Definition displaySeconds (s : TimerState) : JS.number :=
  if configOpen s then duration s else remainingTime s.

(** The two fields of the clock text *)
Definition minutesText (displaySeconds : JS.number) : string :=
  let minutes := JS.floorDiv displaySeconds 60 in
  padStart2 (JS.toString minutes).

Definition secondsText (displaySeconds : JS.number) : string :=
  let seconds := remainder displaySeconds 60 in
  padStart2 (JS.toString seconds).

Definition timeStr (s : TimerState) : string :=
  minutesText (displaySeconds s) ++ ":" ++ secondsText (displaySeconds s).

(** The overlay's widgets (dial, clock button, close button) are
    rendered while [configOpen]; otherwise the progress ring, and the
    settings button unless the alarm is on. *)
Definition overlayRendered (s : TimerState) : bool := configOpen s.

Definition settingsRendered (s : TimerState) : bool :=
  negb (configOpen s) && negb (bool_decide (status s = Alarm)).

End CircularTimer.

(** ** The rendered interface as a transition system

    The events a user (or the interval) can raise, each enabled when
    the element that raises it is rendered; the dial reports the angle
    of the pointer in degrees. *)

Module UI.

Record Ui : Type := mkUi {
  app : App;
  modal : TimeInputModal.Modal
}.

Inductive UiEvent : Type :=
| ClickToggle
| ClickReset
| ClickSkip
| ClickSettings
| ClickClose
| ClickTime
| DialPointer (degrees : Q)
| ModalTitleClick
| ModalChange (text : string)
| ModalSubmit
| ModalCancel
| ClickClearStats
| IntervalTick
| PageReload.

Definition enabled (e : UiEvent) (u : Ui) : bool :=
  let s := state (app u) in
  match e with
  | ClickToggle | ClickReset | ClickClearStats | PageReload => true
  | ClickSkip => Controls.skipRendered s
  | ClickSettings => CircularTimer.settingsRendered s
  | ClickClose | ClickTime | DialPointer _ => CircularTimer.overlayRendered s
  | ModalTitleClick | ModalChange _ | ModalSubmit | ModalCancel =>
      isInputModalOpen (app u)
  | IntervalTick => bool_decide (status s = Running)
  end.

(** From the angle on, [handlePointer] maps it to minutes with the
    bounds of the mode being configured and calls [onUpdate]. *)
Definition handlePointerAngle (degrees : Q) (a : App) : App :=
  let newMinutes :=
    ConfigDial.minutesForAngle (mode (state a)) degrees in
  updateDuration (JS.Num newMinutes) a.

(** [onTimeClick]: the modal is mounted, with fresh state, when it was
    not open. *)
Definition openModal (u : Ui) : Ui :=
  {| app := setIsInputModalOpen true (app u);
     modal :=
       if isInputModalOpen (app u) then modal u
       else TimeInputModal.initial (mode (state (app u))) |}.

Definition onApp (f : App -> App) (u : Ui) : Ui :=
  {| app := runEffects (state (app u)) (f (app u)); modal := modal u |}.

Definition onModal (f : TimeInputModal.Modal -> TimeInputModal.Modal)
  (u : Ui) : Ui :=
  {| app := app u; modal := f (modal u) |}.

Definition submit (u : Ui) : Ui :=
  let '(md, a) :=
    TimeInputModal.handleSubmit onConfirm (mode (state (app u)))
      (modal u) (app u) in
  {| app := runEffects (state (app u)) a; modal := md |}.

Definition fire (e : UiEvent) (u : Ui) : Ui :=
  match e with
  | ClickToggle => onApp toggleTimer u
  | ClickReset => onApp resetTimer u
  | ClickSkip => onApp skipTimer u
  | ClickSettings => onApp openConfig u
  | ClickClose => onApp closeConfig u
  | ClickTime => openModal u
  | DialPointer degrees => onApp (handlePointerAngle degrees) u
  | ModalTitleClick => onModal TimeInputModal.handleTitleClick u
  | ModalChange text => onModal (TimeInputModal.onChange text) u
  | ModalSubmit => submit u
  | ModalCancel => onApp (setIsInputModalOpen false) u
  | ClickClearStats => onApp clearStats u
  | IntervalTick => onApp tick u
  | PageReload => {| app := mount (localStorage (app u)); modal := modal u |}
  end.

(** An event that no rendered element can raise does not happen. *)
Definition step (u : Ui) (e : UiEvent) : Ui :=
  if enabled e u then fire e u else u.

Definition start (ls : gmap string string) : Ui :=
  {| app := mount ls; modal := TimeInputModal.initial Focus |}.

Definition run (ls : gmap string string) (es : list UiEvent) : Ui :=
  fold_left step es (start ls).

End UI.

(** ** Further invariants *)

(** The store holds the text of the state's statistics. *)
Definition statsSynced (a : App) : Prop :=
  let s := state a in
  let ls := localStorage a in
  getItem ls (STORAGE_KEYS K_sessionsCount)
    = Some (JS.toString (sessionsCount s)) /\
  getItem ls (STORAGE_KEYS K_totalFocusTime)
    = Some (JS.toString (totalFocusTime s)) /\
  getItem ls (STORAGE_KEYS K_totalBreakTime)
    = Some (JS.toString (totalBreakTime s)) /\
  getItem ls (STORAGE_KEYS K_focusCompletedInCurrentCycle)
    = Some (JS.boolToString (focusCompletedInCurrentCycle s)).

(** The session length on display is the one the store holds for the
    mode. *)
Definition durationSynced (a : App) : Prop :=
  duration (state a) = getSavedDuration (localStorage a) (mode (state a)).

(** The three counters are non-negative integers. *)
Definition statsInv (s : TimerState) : Prop :=
  JS.leb (JS.Num 0) (sessionsCount s) = true /\
  JS.leb (JS.Num 0) (totalFocusTime s) = true /\
  JS.leb (JS.Num 0) (totalBreakTime s) = true.

(** While the alarm state lasts, the last call to the dispatcher is the
    alert for the mode on display. *)
Definition ringingInv (a : App) : Prop :=
  status (state a) = Alarm ->
  exists earlier, alerts a = TriggerAlert (mode (state a)) :: earlier.

(** An active timer (running or in alarm) has the overlay closed. *)
Definition overlayInv (s : TimerState) : Prop :=
  status s = Running \/ status s = Alarm -> configOpen s = false.

(** An app without the flag of the modal: what the handlers of the
    state machine read and write. *)
Definition core (a : App)
  : gmap string string * TimerState * list AlertCall :=
  (localStorage a, state a, alerts a).

(** The number of clicks on the modal's title among the events. *)
Fixpoint titleClicks (es : list UI.UiEvent) : nat :=
  match es with
  | [] => 0
  | UI.ModalTitleClick :: rest => S (titleClicks rest)
  | _ :: rest => titleClicks rest
  end.

(** Every event but a duration update to zero minutes. *)
Definition notZeroUpdate (e : Event) : bool :=
  match e with
  | EUpdateDuration m => negb (JS.strictEq m (JS.Num 0))
  | _ => true
  end.

(** ** Invariants of the component *)

(** [0 <= remainingTime <= duration], and an alarm shows zero. *)
Definition timeInv (s : TimerState) : Prop :=
  JS.leb (JS.Num 0) (remainingTime s) = true /\
  JS.leb (remainingTime s) (duration s) = true /\
  (status s = Alarm -> remainingTime s = JS.Num 0).

(** Every duration the store can hand back is a non-negative integer. *)
Definition storeOk (ls : gmap string string) : Prop :=
  forall m, JS.leb (JS.Num 0) (getSavedDuration ls m) = true.

(** The countdown never runs behind the configuration overlay. *)
Definition runningInv (s : TimerState) : Prop :=
  status s = Running -> configOpen s = false.

(** A key of the statistics is not a duration key. *)
Definition statsKey (k : StorageKey) : bool :=
  match k with K_focus | K_break => false | _ => true end.

(** The other mode. *)
Definition flipMode (m : TimerMode) : TimerMode :=
  match m with Focus => Break | Break => Focus end.

(** The invariant carried along a run: the timer's and the store's. *)
Definition appInv (a : App) : Prop :=
  timeInv (state a) /\ storeOk (localStorage a).

(** ** The exact range of the model

    Up to [Number.MAX_SAFE_INTEGER] a double holds every integer
    exactly, sums, differences and products that stay within that range
    are exact, and [toString] prints plain decimal digits, which
    [parseInt] reads back exactly.  Beyond it the code rounds, prints
    in exponent form from [1e21] on and overflows to [Infinity], none of
    which [JS.number] has: the statements about values that the user
    chooses are made within this range. *)

Definition MAX_SAFE_INTEGER : Z := 2 ^ 53 - 1.

(** A number of seconds within the range: [0 <= n <= MAX_SAFE_INTEGER] *)
Definition exactSeconds (n : JS.number) : bool :=
  JS.leb (JS.Num 0) n && JS.leb n (JS.Num MAX_SAFE_INTEGER).

(** An integer within the range, of either sign *)
Definition exactInteger (n : JS.number) : bool :=
  JS.leb (JS.Num (- MAX_SAFE_INTEGER)) n && JS.leb n (JS.Num MAX_SAFE_INTEGER).

(** A session length between one minute and one hour, in seconds *)
Definition sessionRange (n : JS.number) : bool :=
  JS.leb (JS.Num 60) n && JS.leb n (JS.Num 3600).

(** What [updateDuration] shows for [newMinutes] (its [newSeconds]) and
    what it stores satisfy [P]; the other events carry no number. *)
Definition updatesWithin (P : JS.number -> bool) (e : Event) : bool :=
  match e with
  | EUpdateDuration newMinutes =>
      P (if JS.strictEq newMinutes (JS.Num 0) then JS.Num 1
         else JS.mul newMinutes (JS.Num 60))
      && P (JS.mul newMinutes (JS.Num 60))
  | _ => true
  end.

(** The duration on display and every duration the store hands back
    satisfy [P]. *)
Definition durationsSatisfy (P : JS.number -> bool) (a : App) : Prop :=
  P (duration (state a)) = true /\
  forall m, P (getSavedDuration (localStorage a) m) = true.

(** A duration update with a non-negative integer whose seconds stay
    within the range; the other events carry no number. *)
Definition eventExact (e : Event) : bool :=
  match e with
  | EUpdateDuration newMinutes =>
      JS.leb (JS.Num 0) newMinutes
      && JS.leb (JS.mul newMinutes (JS.Num 60)) (JS.Num MAX_SAFE_INTEGER)
  | _ => true
  end.

(** Every duration the store hands back is within the range. *)
Definition storeExact (ls : gmap string string) : Prop :=
  forall m, exactSeconds (getSavedDuration ls m) = true.

(** The time invariant, with the duration on display and every stored
    duration within the range. *)
Definition exactInv (a : App) : Prop :=
  timeInv (state a) /\ durationsSatisfy exactSeconds a.

(** A duration update with an integer other than zero whose seconds stay
    within the range. *)
Definition exactNonzeroUpdate (e : Event) : bool :=
  match e with
  | EUpdateDuration newMinutes =>
      negb (JS.strictEq newMinutes (JS.Num 0))
      && exactInteger (JS.mul newMinutes (JS.Num 60))
  | _ => true
  end.

(** The three counters are within the range. *)
Definition exactCounters (s : TimerState) : bool :=
  exactInteger (sessionsCount s) && exactInteger (totalFocusTime s)
  && exactInteger (totalBreakTime s).

(** ** Sample states *)

(** A break in its last second, after a completed focus session. *)
Definition lastSecondOfBreak : App :=
  {| localStorage := ∅;
     state :=
       {| mode := Break; status := Running; configOpen := false;
          duration := JS.Num 300; remainingTime := JS.Num 1;
          sessionsCount := JS.Num 0; totalFocusTime := JS.Num 25;
          totalBreakTime := JS.Num 0; focusCompletedInCurrentCycle := true |};
     isInputModalOpen := false;
     alerts := [] |}.

(** An idle focus session set to ten minutes, the overlay open. *)
Definition configuringTenMinutes : App :=
  {| localStorage := {[ "pomodoro_focus_duration" := "600" ]};
     state :=
       {| mode := Focus; status := Idle; configOpen := true;
          duration := JS.Num 600; remainingTime := JS.Num 600;
          sessionsCount := JS.Num 0; totalFocusTime := JS.Num 0;
          totalBreakTime := JS.Num 0; focusCompletedInCurrentCycle := false |};
     isInputModalOpen := false;
     alerts := [] |}.

(** ** Proof automation *)

(** Projections of the records, without unfolding the store. *)
Ltac proj_simpl :=
  cbn [state localStorage isInputModalOpen alerts
       setState storeItem call setIsInputModalOpen
       triggerAlert stopSound
       mode status configOpen duration remainingTime sessionsCount
       totalFocusTime totalBreakTime focusCompletedInCurrentCycle
       JS.add JS.sub JS.mul JS.floorDiv JS.strictEq JS.leb JS.ltb].

(** Boolean comparisons of integers from linear facts. *)
Ltac zbool :=
  first [ apply Z.eqb_eq; lia | apply Z.eqb_neq; lia
        | apply Z.leb_le; lia | apply Z.leb_gt; lia
        | apply Z.ltb_lt; lia | apply Z.ltb_ge; lia ].

(** * Properties *)

(** ** Numbers and strings *)

Lemma digits_step (c : ascii) (k : Z) (s : string) (acc : option Z) :
  JS.digitOf c = Some k ->
  JS.digits (String c s) acc = JS.digits s (Some (10 * default 0 acc + k)).
Proof. intros H. cbn [JS.digits]. now rewrite H. Qed.

Lemma digits_of_uint_acc (d : Decimal.uint) (p : positive) :
  JS.digits (NilEmpty.string_of_uint d) (Some (Z.pos p))
  = Some (Z.pos (Pos.of_uint_acc d p)).
Proof.
  revert p.
  induction d; intros p; cbn [NilEmpty.string_of_uint Pos.of_uint_acc];
    [reflexivity | ..].
  all: erewrite digits_step by (vm_compute; reflexivity).
  all: rewrite <- IHd; do 2 f_equal; cbn [default]; unfold id; lia.
Qed.

Lemma digits_of_uint (d : Decimal.uint) :
  JS.digits (NilEmpty.string_of_uint d) (Some 0)
  = Some (Z.of_N (Pos.of_uint d)).
Proof.
  induction d; cbn [NilEmpty.string_of_uint Pos.of_uint];
    [reflexivity | ..].
  all: erewrite digits_step by (vm_compute; reflexivity).
  all: cbn [default]; unfold id; rewrite ?Z.mul_0_r, ?Z.add_0_l; auto.
  all: apply digits_of_uint_acc.
Qed.

(** The digits of a positive number, read without an accumulator. *)
Lemma digits_to_uint (p : positive) :
  JS.digits (NilEmpty.string_of_uint (Pos.to_uint p)) None = Some (Z.pos p).
Proof.
  pose proof (Unsigned.of_to p) as Hof.
  pose proof (digits_of_uint (Pos.to_uint p)) as Hd.
  rewrite Hof in Hd. cbn [Z.of_N] in Hd. rewrite <- Hd.
  destruct (Pos.to_uint p); [discriminate Hof | reflexivity ..].
Qed.

(** The text of a positive number starts with a digit: [parseInt]
    neither trims it nor reads a sign. *)
Lemma string_of_uint_head (d : Decimal.uint) :
  d <> Decimal.Nil ->
  exists c s, NilEmpty.string_of_uint d = String c s /\
              NilZero.string_of_uint d = String c s /\
              JS.isWhiteSpace c = false /\ c <> "-"%char /\ c <> "+"%char.
Proof.
  intros Hd. destruct d; [congruence | ..];
    (eexists; eexists; repeat split; discriminate).
Qed.

(** Reading back what [toString] wrote gives the number again. *)
Lemma parseInt_toString (z : Z) : JS.parseInt (JS.toString (JS.Num z)) = JS.Num z.
Proof.
  destruct z as [|p|p]; [reflexivity | ..]; cbn [JS.toString Z.to_int NilZero.string_of_int].
  - destruct (string_of_uint_head (Pos.to_uint p) (Unsigned.to_uint_nonnil p))
      as (c & s & Hs & Hz & Hw & Hm & Hp).
    pose proof (digits_to_uint p) as Hd. rewrite Hs in Hd.
    rewrite Hz. unfold JS.parseInt. cbn [JS.trimStart]. rewrite Hw.
    apply Ascii.eqb_neq in Hm, Hp. rewrite Hm, Hp, Hd. reflexivity.
  - destruct (string_of_uint_head (Pos.to_uint p) (Unsigned.to_uint_nonnil p))
      as (c & s & Hs & Hz & _).
    pose proof (digits_to_uint p) as Hd. rewrite Hs in Hd.
    rewrite Hz. unfold JS.parseInt. cbn [JS.trimStart].
    change (JS.isWhiteSpace "-") with false. cbn iota.
    change (Ascii.eqb "-" "-") with true. cbn iota. rewrite Hd. reflexivity.
Qed.

Lemma toString_truthy (z : Z) : JS.toString (JS.Num z) <> "".
Proof.
  intros H. pose proof (parseInt_toString z) as Hp. rewrite H in Hp.
  discriminate Hp.
Qed.

Lemma parseSaved_toString (z : Z) (dflt : JS.number) :
  parseSaved (Some (JS.toString (JS.Num z))) dflt = JS.Num z.
Proof.
  unfold parseSaved. pose proof (toString_truthy z) as Hne.
  pose proof (parseInt_toString z) as Hp.
  destruct (JS.toString (JS.Num z)); [congruence | exact Hp].
Qed.

(** ** The store *)

Lemma duration_key_inj (m m' : TimerMode) :
  STORAGE_KEYS (modeKey m) = STORAGE_KEYS (modeKey m') -> m = m'.
Proof. destruct m, m'; intros H; first [reflexivity | discriminate H]. Qed.

Lemma getSavedDuration_setItem_eq (ls : gmap string string) (m : TimerMode) (z : Z) :
  getSavedDuration
    (setItem (STORAGE_KEYS (modeKey m)) (JS.toString (JS.Num z)) ls) m
  = JS.Num z.
Proof.
  unfold getSavedDuration, getItem, setItem.
  rewrite lookup_insert_eq. apply parseSaved_toString.
Qed.

Lemma getSavedDuration_setItem_other
  (ls : gmap string string) (m m' : TimerMode) (v : string) :
  m <> m' ->
  getSavedDuration (setItem (STORAGE_KEYS (modeKey m')) v ls) m
  = getSavedDuration ls m.
Proof.
  intros Hne. unfold getSavedDuration, getItem, setItem.
  rewrite lookup_insert_ne; [reflexivity |].
  intros H. apply duration_key_inj in H. congruence.
Qed.

Lemma getSavedDuration_setItem_stats
  (ls : gmap string string) (k : StorageKey) (m : TimerMode) (v : string) :
  statsKey k = true ->
  getSavedDuration (setItem (STORAGE_KEYS k) v ls) m = getSavedDuration ls m.
Proof.
  intros Hk. unfold getSavedDuration, getItem, setItem.
  rewrite lookup_insert_ne; [reflexivity |].
  destruct k, m; first [discriminate Hk | discriminate].
Qed.

Lemma getSavedDuration_absent (ls : gmap string string) (m : TimerMode) :
  getItem ls (STORAGE_KEYS (modeKey m)) = None ->
  getSavedDuration ls m = DEFAULTS m.
Proof. intros H. unfold getSavedDuration. now rewrite H. Qed.

Lemma getSavedDuration_written (ls : gmap string string) (m : TimerMode) (z : Z) :
  getItem ls (STORAGE_KEYS (modeKey m)) = Some (JS.toString (JS.Num z)) ->
  getSavedDuration ls m = JS.Num z.
Proof.
  intros H. unfold getSavedDuration. rewrite H. apply parseSaved_toString.
Qed.

Lemma storeOk_empty : storeOk ∅.
Proof. intros m. destruct m; reflexivity. Qed.

Lemma storeOk_setItem_duration
  (ls : gmap string string) (m : TimerMode) (z : Z) :
  0 <= z -> storeOk ls ->
  storeOk (setItem (STORAGE_KEYS (modeKey m)) (JS.toString (JS.Num z)) ls).
Proof.
  intros Hz Hok m'. destruct (decide (m' = m)) as [->|Hne].
  - rewrite getSavedDuration_setItem_eq. cbn. lia.
  - rewrite getSavedDuration_setItem_other by exact Hne. apply Hok.
Qed.

Lemma storeOk_setItem_stats
  (ls : gmap string string) (k : StorageKey) (v : string) :
  statsKey k = true -> storeOk ls -> storeOk (setItem (STORAGE_KEYS k) v ls).
Proof.
  intros Hk Hok m. rewrite getSavedDuration_setItem_stats by exact Hk.
  apply Hok.
Qed.

Lemma storeOk_storeItem_stats (k : StorageKey) (v : string) (a : App) :
  statsKey k = true -> storeOk (localStorage a) ->
  storeOk (localStorage (storeItem k v a)).
Proof. intros Hk Hok. now apply storeOk_setItem_stats. Qed.

Lemma storeOk_persistStats (a : App) :
  storeOk (localStorage a) -> storeOk (localStorage (persistStats a)).
Proof.
  intros Hok. unfold persistStats.
  repeat (apply storeOk_storeItem_stats; [reflexivity |]). exact Hok.
Qed.

(** ** Time invariant: one lemma per handler *)

Lemma leb_nonneg_inv (x : JS.number) :
  JS.leb (JS.Num 0) x = true -> exists z, x = JS.Num z /\ 0 <= z.
Proof.
  destruct x as [z|]; cbn; [|discriminate].
  intros H. exists z. split; [reflexivity | lia].
Qed.

Lemma timeInv_full (s : TimerState) :
  JS.leb (JS.Num 0) (duration s) = true ->
  remainingTime s = duration s -> status s <> Alarm -> timeInv s.
Proof.
  intros H0 Heq Hst. unfold timeInv. rewrite Heq.
  destruct (leb_nonneg_inv _ H0) as (z & Hz & Hpos). rewrite Hz in *.
  repeat split; [exact H0 | cbn; lia | congruence].
Qed.

Lemma timeInv_duration_nonneg (s : TimerState) :
  timeInv s -> JS.leb (JS.Num 0) (duration s) = true.
Proof.
  intros (H0 & H1 & _).
  destruct (remainingTime s) as [r|], (duration s) as [d|]; cbn in *;
    try discriminate; lia.
Qed.

Lemma appInv_mount (ls : gmap string string) : storeOk ls -> appInv (mount ls).
Proof.
  intros Hok. split.
  - apply timeInv_full; [apply Hok | reflexivity | discriminate].
  - unfold mount. apply storeOk_persistStats, Hok.
Qed.

Lemma appInv_switchMode (a : App) : appInv a -> appInv (switchMode a).
Proof.
  intros [_ Hok]. split; [|exact Hok].
  apply timeInv_full; [apply Hok | reflexivity | discriminate].
Qed.

Lemma appInv_call (c : AlertCall) (a : App) : appInv a -> appInv (call c a).
Proof. intros H. exact H. Qed.

Lemma timeInv_tickState (s : TimerState) : timeInv s -> timeInv (tickState s).
Proof.
  intros (H0 & H1 & Hal). unfold tickState.
  destruct (JS.leb (remainingTime s) (JS.Num 1)) eqn:Hle.
  - destruct (bool_decide (mode s = Focus)),
      (focusCompletedInCurrentCycle s); cbn.
    all: repeat split; try reflexivity.
    all: destruct (remainingTime s) as [r|], (duration s) as [d|];
      cbn in *; try discriminate; lia.
  - cbn. destruct (remainingTime s) as [r|] eqn:Hr; [|discriminate].
    destruct (duration s) as [d|]; [|discriminate]. cbn in *.
    repeat split; cbn; [lia | lia |].
    intros Hst. specialize (Hal Hst). injection Hal as ->. discriminate.
Qed.

Lemma appInv_tick (a : App) : appInv a -> appInv (tick a).
Proof.
  intros [Ht Hok]. unfold tick.
  destruct (JS.leb (remainingTime (state a)) (JS.Num 1));
    (split; [apply timeInv_tickState; exact Ht | exact Hok]).
Qed.

Lemma appInv_toggleTimer (a : App) : appInv a -> appInv (toggleTimer a).
Proof.
  intros Ha. unfold toggleTimer. case_bool_decide as Hst.
  - apply appInv_switchMode, appInv_call, Ha.
  - destruct Ha as [(H0 & H1 & Hal) Hok]. split; [|exact Hok].
    repeat split; cbn; [exact H0 | exact H1 |].
    case_bool_decide; discriminate.
Qed.

Lemma appInv_resetTimer (a : App) : appInv a -> appInv (resetTimer a).
Proof.
  intros [Ht Hok]. unfold resetTimer.
  assert (Hst : state (if bool_decide (status (state a) = Alarm)
                       then stopSound a else a) = state a)
    by (case_bool_decide; reflexivity).
  assert (Hls : localStorage (if bool_decide (status (state a) = Alarm)
                              then stopSound a else a) = localStorage a)
    by (case_bool_decide; reflexivity).
  rewrite Hst. destruct (configOpen (state a)).
  - split.
    + apply timeInv_full; cbn; [|reflexivity | discriminate].
      destruct (mode (state a)); reflexivity.
    + cbn. rewrite Hls. destruct (mode (state a));
        apply storeOk_setItem_duration; auto; lia.
  - split; [|cbn; rewrite Hls; exact Hok].
    apply timeInv_full; cbn; rewrite ?Hst;
      [apply timeInv_duration_nonneg, Ht | reflexivity | discriminate].
Qed.

Lemma appInv_skipTimer (a : App) : appInv a -> appInv (skipTimer a).
Proof.
  intros [Ht Hok]. unfold skipTimer. apply appInv_switchMode.
  split; [|exact Hok]. destruct Ht as (H0 & H1 & Hal).
  repeat split; assumption.
Qed.

Lemma appInv_openConfig (a : App) : appInv a -> appInv (openConfig a).
Proof.
  intros [Ht Hok]. split; [|exact Hok].
  apply timeInv_full; cbn;
    [apply timeInv_duration_nonneg, Ht | reflexivity | discriminate].
Qed.

Lemma appInv_closeConfig (a : App) : appInv a -> appInv (closeConfig a).
Proof.
  intros [(H0 & H1 & Hal) Hok]. split; [|exact Hok].
  repeat split; assumption.
Qed.

Lemma appInv_updateDuration (m : JS.number) (a : App) :
  JS.leb (JS.Num 0) m = true -> appInv a -> appInv (updateDuration m a).
Proof.
  intros Hm [Ht Hok]. destruct (leb_nonneg_inv _ Hm) as (z & -> & Hz).
  split.
  - apply timeInv_full; cbn; [|reflexivity | discriminate].
    destruct (z =? 0); cbn; lia.
  - cbn. apply storeOk_setItem_duration; [lia | exact Hok].
Qed.

Lemma appInv_clearStats (a : App) : appInv a -> appInv (clearStats a).
Proof.
  intros [(H0 & H1 & Hal) Hok]. split.
  - repeat split; assumption.
  - unfold clearStats.
    repeat (apply storeOk_storeItem_stats; [reflexivity |]). exact Hok.
Qed.

Lemma appInv_runEffects (before : TimerState) (a : App) :
  appInv a -> appInv (runEffects before a).
Proof.
  intros [Ht Hok]. unfold runEffects. case_decide; [split; assumption|].
  split; [exact Ht | apply storeOk_persistStats, Hok].
Qed.

Lemma appInv_handle (e : Event) (a : App) :
  eventOk e = true -> appInv a -> appInv (handle e a).
Proof.
  intros He Ha. destruct e; cbn [handle].
  - now apply appInv_toggleTimer.
  - now apply appInv_tick.
  - now apply appInv_switchMode.
  - now apply appInv_skipTimer.
  - now apply appInv_resetTimer.
  - now apply appInv_openConfig.
  - now apply appInv_closeConfig.
  - now apply appInv_updateDuration.
  - now apply appInv_clearStats.
  - apply appInv_mount, Ha.
Qed.

Lemma appInv_step (e : Event) (a : App) :
  eventOk e = true -> appInv a -> appInv (step a e).
Proof. intros He Ha. apply appInv_runEffects, appInv_handle; assumption. Qed.

Lemma appInv_fold (es : list Event) (a : App) :
  forallb eventOk es = true -> appInv a -> appInv (fold_left step es a).
Proof.
  revert a. induction es as [|e es IH]; intros a Hes Ha; [exact Ha|].
  cbn in Hes. apply andb_prop in Hes as [He Hes].
  cbn [fold_left]. apply IH; [exact Hes |]. now apply appInv_step.
Qed.

Lemma timeInv_spec (s : TimerState) :
  timeInv s <->
  exists r d, remainingTime s = JS.Num r /\ duration s = JS.Num d /\
              0 <= r <= d /\ (status s = Alarm -> r = 0).
Proof.
  unfold timeInv. split.
  - intros (H0 & H1 & Hal).
    destruct (remainingTime s) as [r|], (duration s) as [d|];
      cbn in *; try discriminate.
    exists r, d. repeat split; try lia.
    intros Hst. specialize (Hal Hst). now injection Hal.
  - intros (r & d & -> & -> & Hrd & Hal). cbn.
    repeat split; try lia. intros Hst. now rewrite (Hal Hst).
Qed.

(** ** updateDuration *)

(** For a number of minutes other than zero, with its seconds within
    the exact range, the handler stores what it shows: the duration in
    seconds, which the store hands back. *)
Lemma updateDuration_nonzero (z : Z) (a : App) :
  z <> 0 -> - MAX_SAFE_INTEGER <= z * 60 <= MAX_SAFE_INTEGER ->
  let a' := updateDuration (JS.Num z) a in
  duration (state a') = JS.Num (z * 60) /\
  remainingTime (state a') = duration (state a') /\
  status (state a') = Idle /\
  focusCompletedInCurrentCycle (state a') = false /\
  mode (state a') = mode (state a) /\
  getItem (localStorage a') (STORAGE_KEYS (modeKey (mode (state a))))
    = Some (JS.toString (duration (state a'))) /\
  getSavedDuration (localStorage a') (mode (state a)) = duration (state a').
Proof.
  intros Hz _. unfold updateDuration. proj_simpl.
  apply Z.eqb_neq in Hz. rewrite Hz.
  repeat split; try reflexivity.
  - unfold getItem, setItem. apply lookup_insert_eq.
  - apply getSavedDuration_setItem_eq.
Qed.

(** C1, at zero minutes.  [updateDuration(0)] shows the one-second
    floor (duration and remaining time 1, status idle, cycle flag
    cleared) but writes the text "0" under the mode's duration key, so
    the persisted value is not the new duration: the store hands back 0
    seconds, where the claim has the persisted value equal to the
    1-second floor. *)
Theorem updateDuration_zero_persists_zero (a : App) :
  let a' := updateDuration (JS.Num 0) a in
  duration (state a') = JS.Num 1 /\
  remainingTime (state a') = JS.Num 1 /\
  status (state a') = Idle /\
  focusCompletedInCurrentCycle (state a') = false /\
  getItem (localStorage a') (STORAGE_KEYS (modeKey (mode (state a))))
    = Some "0" /\
  getSavedDuration (localStorage a') (mode (state a)) = JS.Num 0 /\
  getSavedDuration (localStorage a') (mode (state a)) <> duration (state a').
Proof.
  unfold updateDuration. proj_simpl.
  change (0 =? 0) with true. change (0 * 60) with 0. cbv iota.
  pose proof (getSavedDuration_setItem_eq (localStorage a) (mode (state a)) 0)
    as Hread.
  repeat split; try reflexivity.
  - unfold getItem, setItem. apply lookup_insert_eq.
  - exact Hread.
  - rewrite Hread. discriminate.
Qed.

(** The floor is lost on the way through the store: setting zero
    minutes and reloading the page starts a zero-second session. *)
Example updateDuration_zero_reload :
  duration (state (run ∅ [EUpdateDuration (JS.Num 0)])) = JS.Num 1 /\
  duration (state (run ∅ [EUpdateDuration (JS.Num 0); EReload])) = JS.Num 0.
Proof. split; reflexivity. Qed.

(** ** tick *)

Lemma state_tick (a : App) : state (tick a) = tickState (state a).
Proof.
  unfold tick. destruct (JS.leb (remainingTime (state a)) (JS.Num 1));
    reflexivity.
Qed.





(** C3.  On the tick that reaches zero ([remainingTime <= 1]), with
    integer statistics: a finishing focus session sets the cycle flag,
    adds [floor(duration / 60)] to [totalFocusTime] and leaves
    [sessionsCount] (and [totalBreakTime]) alone; a finishing break adds
    [floor(duration / 60)] to [totalBreakTime] (and leaves
    [totalFocusTime] alone), and [sessionsCount] goes up, by exactly
    one, if and only if the cycle flag was set, in which case the flag
    is cleared; with the flag unset the count stays and the flag stays
    unset. *)
Theorem tick_completion_bookkeeping
  (a : App) (r d n tf tb : Z) :
  remainingTime (state a) = JS.Num r -> r <= 1 ->
  duration (state a) = JS.Num d ->
  sessionsCount (state a) = JS.Num n ->
  totalFocusTime (state a) = JS.Num tf ->
  totalBreakTime (state a) = JS.Num tb ->
  let s := state a in
  let s' := state (tick a) in
  (mode s = Focus ->
     focusCompletedInCurrentCycle s' = true /\
     totalFocusTime s' = JS.Num (tf + d / 60) /\
     totalBreakTime s' = JS.Num tb /\
     sessionsCount s' = JS.Num n) /\
  (mode s = Break ->
     totalBreakTime s' = JS.Num (tb + d / 60) /\
     totalFocusTime s' = JS.Num tf /\
     (sessionsCount s' = JS.Num (n + 1)
        <-> focusCompletedInCurrentCycle s = true) /\
     (focusCompletedInCurrentCycle s = true ->
        sessionsCount s' = JS.Num (n + 1) /\
        focusCompletedInCurrentCycle s' = false) /\
     (focusCompletedInCurrentCycle s = false ->
        sessionsCount s' = JS.Num n /\
        focusCompletedInCurrentCycle s' = false)).
Proof.
  intros Hr Hle Hd Hn Htf Htb s s'. subst s s'.
  rewrite state_tick. unfold tickState. rewrite Hr. proj_simpl.
  assert (H : (r <=? 1) = true) by zbool. rewrite H.
  split; intros Hm; rewrite Hm.
  - change (bool_decide (Focus = Focus)) with true. proj_simpl.
    rewrite Hd, Hn, Htf, Htb. repeat split.
  - change (bool_decide (Break = Focus)) with false. proj_simpl.
    rewrite Hd, Htf, Htb.
    destruct (focusCompletedInCurrentCycle (state a)); proj_simpl;
      rewrite Hn; repeat split; try congruence; try discriminate.
    intros Heq. injection Heq. lia.
Qed.

(** ** resetTimer *)

Lemma state_resetTimer (a : App) :
  state (resetTimer a) =
  if configOpen (state a) then
    {| mode := mode (state a);
       status := Idle;
       configOpen := configOpen (state a);
       duration := DEFAULTS (mode (state a));
       remainingTime := DEFAULTS (mode (state a));
       sessionsCount := sessionsCount (state a);
       totalFocusTime := totalFocusTime (state a);
       totalBreakTime := totalBreakTime (state a);
       focusCompletedInCurrentCycle := false |}
  else
    {| mode := mode (state a);
       status := Idle;
       configOpen := configOpen (state a);
       duration := duration (state a);
       remainingTime := duration (state a);
       sessionsCount := sessionsCount (state a);
       totalFocusTime := totalFocusTime (state a);
       totalBreakTime := totalBreakTime (state a);
       focusCompletedInCurrentCycle := false |}.
Proof.
  unfold resetTimer. case_bool_decide; proj_simpl;
    destruct (configOpen (state a)) eqn:Hc; proj_simpl; rewrite ?Hc;
    reflexivity.
Qed.

Lemma localStorage_resetTimer (a : App) :
  localStorage (resetTimer a) =
  if configOpen (state a) then
    setItem (STORAGE_KEYS (modeKey (mode (state a))))
      (JS.toString (DEFAULTS (mode (state a)))) (localStorage a)
  else localStorage a.
Proof.
  unfold resetTimer. case_bool_decide; proj_simpl;
    destruct (configOpen (state a)); reflexivity.
Qed.

(** The statistics effect leaves both duration keys alone. *)
Lemma runEffects_duration_keys (before : TimerState) (a : App) (m : TimerMode) :
  getItem (localStorage (runEffects before a)) (STORAGE_KEYS (modeKey m))
  = getItem (localStorage a) (STORAGE_KEYS (modeKey m)).
Proof.
  unfold runEffects. case_decide; [reflexivity|].
  unfold persistStats, getItem. proj_simpl. unfold setItem.
  rewrite !lookup_insert_ne; [reflexivity | destruct m; discriminate ..].
Qed.

(** C5.  [reset()] with the overlay open puts the mode's factory
    default (1500 s for focus, 300 s for break) into [duration] and
    [remainingTime], writes it under the mode's duration key (whatever
    was there before), so that the store hands it back, sets the status
    to idle and clears the cycle flag.  With the overlay closed it
    keeps [duration], writes nothing to the store, sets
    [remainingTime] to [duration], the status to idle and clears the
    flag; the effects of the following render do not touch the duration
    keys either. *)
Theorem resetTimer_spec (a : App) :
  let s := state a in
  let a' := resetTimer a in
  DEFAULTS Focus = JS.Num 1500 /\ DEFAULTS Break = JS.Num 300 /\
  (configOpen s = true ->
     duration (state a') = DEFAULTS (mode s) /\
     remainingTime (state a') = DEFAULTS (mode s) /\
     getItem (localStorage a') (STORAGE_KEYS (modeKey (mode s)))
       = Some (JS.toString (DEFAULTS (mode s))) /\
     getSavedDuration (localStorage a') (mode s) = DEFAULTS (mode s) /\
     status (state a') = Idle /\
     focusCompletedInCurrentCycle (state a') = false /\
     mode (state a') = mode s) /\
  (configOpen s = false ->
     duration (state a') = duration s /\
     localStorage a' = localStorage a /\
     (forall m, getItem (localStorage (step a EReset))
                  (STORAGE_KEYS (modeKey m))
                = getItem (localStorage a) (STORAGE_KEYS (modeKey m))) /\
     remainingTime (state a') = duration s /\
     status (state a') = Idle /\
     focusCompletedInCurrentCycle (state a') = false /\
     mode (state a') = mode s).
Proof.
  cbv zeta. split; [reflexivity | split; [reflexivity | split]]; intros Hc.
  - rewrite state_resetTimer, localStorage_resetTimer, Hc. proj_simpl.
    repeat split; try reflexivity.
    + unfold getItem, setItem. apply lookup_insert_eq.
    + destruct (mode (state a)); apply getSavedDuration_setItem_eq.
  - rewrite state_resetTimer, localStorage_resetTimer, Hc. proj_simpl.
    repeat split; try reflexivity.
    intros m. unfold step. rewrite runEffects_duration_keys.
    cbn [handle]. now rewrite localStorage_resetTimer, Hc.
Qed.

(** ** switchMode and skipTimer *)

Lemma state_skipTimer (a : App) :
  state (skipTimer a) =
  let newDuration := getSavedDuration (localStorage a) (flipMode (mode (state a))) in
  {| mode := flipMode (mode (state a));
     status := Idle;
     configOpen := configOpen (state a);
     duration := newDuration;
     remainingTime := newDuration;
     sessionsCount := sessionsCount (state a);
     totalFocusTime := totalFocusTime (state a);
     totalBreakTime := totalBreakTime (state a);
     focusCompletedInCurrentCycle := false |}.
Proof. reflexivity. Qed.


(** C6.  Whatever the cycle flag was, [skip()] clears it, flips the
    mode, loads the new mode's duration from the store into both
    [duration] and [remainingTime] (the factory default when the key is
    absent, the number written when the key holds a number's text),
    sets the status to idle, and leaves [sessionsCount] as it was, also
    after the effects of the following render. *)
Theorem skipTimer_spec (a : App) :
  let s := state a in
  let s' := state (skipTimer a) in
  focusCompletedInCurrentCycle s' = false /\
  mode s' = flipMode (mode s) /\
  (mode s = Focus -> mode s' = Break) /\
  (mode s = Break -> mode s' = Focus) /\
  duration s' = getSavedDuration (localStorage a) (mode s') /\
  remainingTime s' = getSavedDuration (localStorage a) (mode s') /\
  (getItem (localStorage a) (STORAGE_KEYS (modeKey (mode s'))) = None ->
     duration s' = DEFAULTS (mode s') /\
     remainingTime s' = DEFAULTS (mode s')) /\
  (forall z,
     getItem (localStorage a) (STORAGE_KEYS (modeKey (mode s')))
       = Some (JS.toString (JS.Num z)) ->
     duration s' = JS.Num z /\ remainingTime s' = JS.Num z) /\
  status s' = Idle /\
  sessionsCount s' = sessionsCount s /\
  sessionsCount (state (step a ESkip)) = sessionsCount s.
Proof.
  cbv zeta. rewrite state_skipTimer. cbv zeta. proj_simpl.
  repeat split; try reflexivity.
  - intros ->. reflexivity.
  - intros ->. reflexivity.
  - now apply getSavedDuration_absent.
  - now apply getSavedDuration_absent.
  - now apply getSavedDuration_written.
  - now apply getSavedDuration_written.
  - unfold step, runEffects. case_decide; reflexivity.
Qed.

(** ** The invariants along a run *)

Lemma runningInv_handle (e : Event) (a : App) :
  runningInv (state a) -> runningInv (state (handle e a)).
Proof.
  unfold runningInv. intros Ha. destruct e; cbn [handle].
  - unfold toggleTimer. case_bool_decide; [discriminate | reflexivity].
  - rewrite state_tick. unfold tickState.
    destruct (JS.leb (remainingTime (state a)) (JS.Num 1)).
    + destruct (bool_decide (mode (state a) = Focus)),
        (focusCompletedInCurrentCycle (state a)); discriminate.
    + exact Ha.
  - discriminate.
  - discriminate.
  - rewrite state_resetTimer. destruct (configOpen (state a)); discriminate.
  - discriminate.
  - reflexivity.
  - discriminate.
  - exact Ha.
  - discriminate.
Qed.

Lemma runningInv_step (a : App) (e : Event) :
  runningInv (state a) -> runningInv (state (step a e)).
Proof.
  intros Ha. unfold step, runEffects.
  case_decide; proj_simpl; unfold persistStats; proj_simpl;
    now apply runningInv_handle.
Qed.

Lemma runningInv_fold (es : list Event) (a : App) :
  runningInv (state a) -> runningInv (state (fold_left step es a)).
Proof.
  revert a. induction es as [|e es IH]; intros a Ha; [exact Ha|].
  cbn [fold_left]. apply IH. now apply runningInv_step.
Qed.

(** C10.  In every state reached from the initial state (on any store)
    by the operations of the state machine, a running countdown has the
    overlay closed.  The initial state is idle; every operation keeps
    the property; toggling from idle or paused is the way into running
    and closes the overlay; [openConfig] always leaves the status
    paused. *)
Theorem running_implies_config_closed :
  (forall ls, runningInv (state (mount ls))) /\
  (forall e a, runningInv (state a) -> runningInv (state (handle e a))) /\
  (forall e a,
     status (state a) <> Running -> status (state (handle e a)) = Running ->
     e = EToggle /\ (status (state a) = Idle \/ status (state a) = Paused) /\
     configOpen (state (handle e a)) = false) /\
  (forall a, status (state (openConfig a)) = Paused /\
             configOpen (state (openConfig a)) = true) /\
  (forall ls es,
     status (state (run ls es)) = Running ->
     configOpen (state (run ls es)) = false).
Proof.
  split; [|split; [|split; [|split]]].
  - intros ls. unfold runningInv. discriminate.
  - apply runningInv_handle.
  - intros e a Hnot Hrun. destruct e; cbn [handle] in *.
    + unfold toggleTimer in *. case_bool_decide as Hal; [discriminate Hrun|].
      repeat split. destruct (status (state a)); auto; congruence.
    + rewrite state_tick in Hrun. unfold tickState in Hrun.
      destruct (JS.leb (remainingTime (state a)) (JS.Num 1)).
      * destruct (bool_decide (mode (state a) = Focus)),
          (focusCompletedInCurrentCycle (state a)); discriminate Hrun.
      * contradiction.
    + discriminate Hrun.
    + discriminate Hrun.
    + rewrite state_resetTimer in Hrun.
      destruct (configOpen (state a)); discriminate Hrun.
    + discriminate Hrun.
    + contradiction.
    + discriminate Hrun.
    + contradiction.
    + discriminate Hrun.
  - intros a. split; reflexivity.
  - intros ls es. apply (runningInv_fold es (mount ls)).
    unfold runningInv. discriminate.
Qed.

(** ** The angle mapping *)

Lemma round_inject_div6 (k : Z) :
  ConfigDial.round (inject_Z (k * 6) / 6) = k.
Proof.
  unfold ConfigDial.round, Qfloor, Qdiv, Qmult, Qplus, Qinv, inject_Z. cbn.
  change (Z.pos (1 * 6)) with 6. change (Z.pos (1 * 6 * 2)) with 12.
  symmetry. apply (Z.div_unique _ 12 k 6); lia.
Qed.

Lemma round_zero (angle : Q) :
  (angle == 0)%Q -> ConfigDial.round (angle / 6) = 0.
Proof.
  intros H. unfold ConfigDial.round.
  assert (Heq : (angle / 6 + (1 # 2) == 1 # 2)%Q) by (rewrite H; reflexivity).
  rewrite Heq. reflexivity.
Qed.

Lemma clamp_range (lo hi mins : Z) :
  lo <= hi -> lo <= ConfigDial.clamp lo hi mins <= hi.
Proof. unfold ConfigDial.clamp. lia. Qed.

Lemma clamp_id (lo hi mins : Z) :
  lo <= mins <= hi -> ConfigDial.clamp lo hi mins = mins.
Proof. unfold ConfigDial.clamp. lia. Qed.

(** The mapping stays within any bounds [lo <= hi], whatever the angle. *)
Lemma getMinutesForAngle_clamped (lo hi : Z) (angle : Q) :
  lo <= hi -> lo <= ConfigDial.getMinutesForAngle lo hi angle <= hi.
Proof. intros H. unfold ConfigDial.getMinutesForAngle. now apply clamp_range. Qed.

(** C7.  With the bounds of a mode, (5, 60) for focus and (1, 30) for
    break, mapping an integer number of minutes [m] within the bounds
    to its display angle and back gives [m] again; 60 minutes are
    displayed at 0 degrees and come back as 60. *)
Theorem angle_round_trip :
  (ConfigDial.minVal Focus = 5 /\ ConfigDial.maxVal Focus = 60 /\
   ConfigDial.minVal Break = 1 /\ ConfigDial.maxVal Break = 30) /\
  ConfigDial.getAngleForMinutes 60 = 0 /\
  (forall (md : TimerMode) (m : Z),
     ConfigDial.minVal md <= m <= ConfigDial.maxVal md ->
     ConfigDial.getMinutesForAngle
       (ConfigDial.minVal md) (ConfigDial.maxVal md)
       (inject_Z (ConfigDial.getAngleForMinutes m)) = m).
Proof.
  split; [repeat split | split; [reflexivity |]].
  intros md m Hm.
  assert (Hb : 1 <= ConfigDial.minVal md /\ ConfigDial.maxVal md <= 60).
  { destruct md.
    - change (ConfigDial.minVal Focus) with 5.
      change (ConfigDial.maxVal Focus) with 60. lia.
    - change (ConfigDial.minVal Break) with 1.
      change (ConfigDial.maxVal Break) with 30. lia. }
  unfold ConfigDial.getAngleForMinutes.
  destruct (Z.eq_dec m 60) as [-> | Hne].
  - destruct md; [reflexivity |].
    change (ConfigDial.maxVal Break) with 30 in Hm. lia.
  - rewrite Z.rem_small by lia.
    unfold ConfigDial.getMinutesForAngle. rewrite round_inject_div6.
    assert (H0 : (m =? 0) = false) by zbool. rewrite H0.
    now apply clamp_id.
Qed.

(** C8.  For bounds [1 <= minVal <= maxVal <= 60] and an angle in
    [0, 360), the minutes for the angle lie in [minVal, maxVal] and are
    never 0.  At exactly 0 degrees the rounded quotient is 0, which the
    mapping reads as 60 before clamping: the result is 60 clamped to
    the bounds, that is [maxVal] (60 itself when [maxVal] is 60). *)
Theorem getMinutesForAngle_range (minVal maxVal : Z) (angle : Q) :
  1 <= minVal -> minVal <= maxVal -> maxVal <= 60 ->
  (0 <= angle)%Q -> (angle < 360)%Q ->
  minVal <= ConfigDial.getMinutesForAngle minVal maxVal angle <= maxVal /\
  ConfigDial.getMinutesForAngle minVal maxVal angle <> 0 /\
  ((angle == 0)%Q ->
     ConfigDial.round (angle / 6) = 0 /\
     ConfigDial.getMinutesForAngle minVal maxVal angle
       = ConfigDial.clamp minVal maxVal 60 /\
     ConfigDial.getMinutesForAngle minVal maxVal angle = maxVal /\
     (maxVal < 60 ->
        ConfigDial.getMinutesForAngle minVal maxVal angle < 60)).
Proof.
  intros Hlo Hle Hhi _ _.
  pose proof (getMinutesForAngle_clamped minVal maxVal angle Hle) as Hr.
  split; [exact Hr | split; [lia |]].
  intros H0. pose proof (round_zero angle H0) as Hz.
  unfold ConfigDial.getMinutesForAngle in *. rewrite Hz.
  change (0 =? 0) with true. cbv iota.
  unfold ConfigDial.clamp. repeat split; lia.
Qed.

(** ** Manual entry *)

Lemma handleSubmit_cases {Parent : Type}
  (f : JS.number -> Parent -> Parent) (m : TimerMode)
  (md : TimeInputModal.Modal) (p : Parent) :
  (exists n, TimeInputModal.accepted m md n /\
             TimeInputModal.handleSubmit f m md p = (md, f (JS.Num n) p))
  \/
  ((forall n, ~ TimeInputModal.accepted m md n) /\
   exists msg,
     TimeInputModal.handleSubmit f m md p
     = (TimeInputModal.setError (Some msg) md, p)).
Proof.
  unfold TimeInputModal.handleSubmit, TimeInputModal.accepted.
  destruct (JS.parseInt (TimeInputModal.value md)) as [n|];
    destruct (TimeInputModal.isEasterEggActive md); cbn.
  - destruct (Z.ltb_spec n 0).
    + right. split; [intros k [Hk Hb]; injection Hk as ->; lia | eauto].
    + left. exists n. auto.
  - destruct (Z.ltb_spec n (TimeInputModal.min m)); cbn.
    + right. split; [intros k [Hk Hb]; injection Hk as ->; lia | eauto].
    + destruct (Z.ltb_spec (TimeInputModal.max m) n); cbn.
      * right. split; [intros k [Hk Hb]; injection Hk as ->; lia | eauto].
      * left. exists n. auto.
  - right. split; [intros k [Hk _]; discriminate Hk | eauto].
  - right. split; [intros k [Hk _]; discriminate Hk | eauto].
Qed.

Lemma accepted_unique (m : TimerMode) (md : TimeInputModal.Modal) (n k : Z) :
  TimeInputModal.accepted m md n -> TimeInputModal.accepted m md k -> n = k.
Proof. intros [Hn _] [Hk _]. congruence. Qed.

Lemma easterEgg_clicks (m : TimerMode) (k : nat) :
  TimeInputModal.clickCount
    (Nat.iter k TimeInputModal.handleTitleClick (TimeInputModal.initial m))
  = k.
Proof.
  induction k as [|k IH]; [reflexivity|].
  change (Nat.iter (S k) TimeInputModal.handleTitleClick
            (TimeInputModal.initial m))
    with (TimeInputModal.handleTitleClick
            (Nat.iter k TimeInputModal.handleTitleClick
               (TimeInputModal.initial m))).
  cbn [TimeInputModal.handleTitleClick TimeInputModal.clickCount].
  rewrite IH. lia.
Qed.

(** What a rejected submit returns: the modal with the error set to the
    message of the branch taken, and the parent as it was. *)
Lemma handleSubmit_rejected {Parent : Type}
  (f : JS.number -> Parent -> Parent) (m : TimerMode)
  (md : TimeInputModal.Modal) (p : Parent) :
  (forall n, ~ TimeInputModal.accepted m md n) ->
  TimeInputModal.handleSubmit f m md p
  = (TimeInputModal.setError
       (Some (if TimeInputModal.isEasterEggActive md
              then "Enter a valid number"
              else TimeInputModal.boundsMessage m)) md,
     p).
Proof.
  unfold TimeInputModal.handleSubmit, TimeInputModal.accepted.
  destruct (JS.parseInt (TimeInputModal.value md)) as [k|];
    destruct (TimeInputModal.isEasterEggActive md); cbn; intros Hrej;
    try reflexivity.
  - destruct (Z.ltb_spec k 0); [reflexivity |].
    destruct (Hrej k). split; [reflexivity | lia].
  - destruct (Z.ltb_spec k (TimeInputModal.min m)); cbn; [reflexivity |].
    destruct (Z.ltb_spec (TimeInputModal.max m) k); cbn; [reflexivity |].
    destruct (Hrej k). split; [reflexivity | lia].
Qed.

(** C9.  Submitting the manual entry confirms a value exactly when the
    text parses to an integer that is within [5, 60] for focus or
    [1, 30] for break while the unrestricted mode is off, or that is
    [>= 0] while it is on; the value confirmed is that integer, and the
    app then updates the duration with it.  The unrestricted mode is on
    from the sixth click on the title.  Every other submit confirms
    nothing, leaves the app (timer state, store, alerts, modal flag) as
    it was, and leaves the modal with its error set to a message (the
    bounds message of the mode while the unrestricted mode is off,
    "Enter a valid number" while it is on) and its text and click count
    unchanged. *)
Theorem handleSubmit_spec (m : TimerMode) (md : TimeInputModal.Modal) :
  (forall v,
     TimeInputModal.confirmed m md = Some v <->
     exists n, v = JS.Num n /\ TimeInputModal.accepted m md n) /\
  (forall (a : App) (n : Z),
     TimeInputModal.accepted m md n ->
     TimeInputModal.handleSubmit onConfirm m md a
     = (md, setIsInputModalOpen false (updateDuration (JS.Num n) a))) /\
  (forall a : App,
     (forall n, ~ TimeInputModal.accepted m md n) ->
     TimeInputModal.confirmed m md = None /\
     (exists msg,
        TimeInputModal.handleSubmit onConfirm m md a
        = (TimeInputModal.setError (Some msg) md, a)) /\
     snd (TimeInputModal.handleSubmit onConfirm m md a) = a /\
     TimeInputModal.error
       (fst (TimeInputModal.handleSubmit onConfirm m md a))
     = Some (if TimeInputModal.isEasterEggActive md
             then "Enter a valid number"
             else TimeInputModal.boundsMessage m) /\
     TimeInputModal.error
       (fst (TimeInputModal.handleSubmit onConfirm m md a)) <> None /\
     TimeInputModal.value
       (fst (TimeInputModal.handleSubmit onConfirm m md a))
     = TimeInputModal.value md /\
     TimeInputModal.clickCount
       (fst (TimeInputModal.handleSubmit onConfirm m md a))
     = TimeInputModal.clickCount md) /\
  (TimeInputModal.boundsMessage Focus = "Value between 5 and 60" /\
   TimeInputModal.boundsMessage Break = "Value between 1 and 30") /\
  (TimeInputModal.min Focus = 5 /\ TimeInputModal.max Focus = 60 /\
   TimeInputModal.min Break = 1 /\ TimeInputModal.max Break = 30) /\
  (forall k : nat,
     TimeInputModal.isEasterEggActive
       (Nat.iter k TimeInputModal.handleTitleClick (TimeInputModal.initial m))
     = true <-> (6 <= k)%nat).
Proof.
  split; [|split; [|split; [|split; [|split]]]].
  - intros v. unfold TimeInputModal.confirmed.
    destruct (handleSubmit_cases (fun mins _ => Some mins) m md None)
      as [(n & Hacc & ->) | (Hrej & msg & ->)]; cbn [snd].
    + split.
      * intros Hv. injection Hv as <-. eauto.
      * intros (k & -> & Hk). now rewrite (accepted_unique _ _ _ _ Hacc Hk).
    + split; [discriminate |]. intros (k & _ & Hk). destruct (Hrej k Hk).
  - intros a n Hn.
    destruct (handleSubmit_cases onConfirm m md a)
      as [(k & Hacc & ->) | (Hrej & _)]; [|destruct (Hrej n Hn)].
    now rewrite (accepted_unique _ _ _ _ Hacc Hn).
  - intros a Hrej. split.
    + unfold TimeInputModal.confirmed.
      now rewrite (handleSubmit_rejected _ m md None Hrej).
    + rewrite (handleSubmit_rejected onConfirm m md a Hrej).
      cbn [fst snd TimeInputModal.setError TimeInputModal.error
           TimeInputModal.value TimeInputModal.clickCount].
      repeat split; [eexists; reflexivity | discriminate].
  - split; reflexivity.
  - repeat split.
  - intros k. unfold TimeInputModal.isEasterEggActive.
    rewrite easterEgg_clicks. apply Nat.leb_le.
Qed.

(** ** Concrete runs *)

Example parseInt_25 : JS.parseInt "25" = JS.Num 25.
Proof. reflexivity. Qed.

Example parseInt_sign_and_tail : JS.parseInt "  -7min" = JS.Num (-7).
Proof. reflexivity. Qed.

Example parseInt_empty : JS.parseInt "" = JS.NaN.
Proof. reflexivity. Qed.

Example parseInt_text : JS.parseInt "abc" = JS.NaN.
Proof. reflexivity. Qed.

Example parseInt_fraction : JS.parseInt "12.7" = JS.Num 12.
Proof. reflexivity. Qed.

Example toString_1500 : JS.toString (JS.Num 1500) = "1500".
Proof. reflexivity. Qed.

Example toString_negative : JS.toString (JS.Num (-42)) = "-42".
Proof. reflexivity. Qed.

(** A fresh installation: focus, idle, 25 minutes. *)
Example mount_fresh :
  state (mount ∅) =
  {| mode := Focus; status := Idle; configOpen := false;
     duration := JS.Num 1500; remainingTime := JS.Num 1500;
     sessionsCount := JS.Num 0; totalFocusTime := JS.Num 0;
     totalBreakTime := JS.Num 0; focusCompletedInCurrentCycle := false |}.
Proof. reflexivity. Qed.

(** The default focus session: 1499 ticks leave one second, the next
    one raises the alarm and books 25 minutes of focus. *)
Example focus_session_1499 :
  let a := Nat.iter 1499 tick (run ∅ [EToggle]) in
  status (state a) = Running /\ remainingTime (state a) = JS.Num 1.
Proof. vm_compute. split; reflexivity. Qed.

Example focus_session_1500 :
  state (Nat.iter 1500 tick (run ∅ [EToggle])) =
  {| mode := Focus; status := Alarm; configOpen := false;
     duration := JS.Num 1500; remainingTime := JS.Num 0;
     sessionsCount := JS.Num 0; totalFocusTime := JS.Num 25;
     totalBreakTime := JS.Num 0; focusCompletedInCurrentCycle := true |}.
Proof. vm_compute. reflexivity. Qed.

(** A full cycle counts one session; a break alone counts none. *)
Example full_cycle_counts_once :
  let focusDone := Nat.iter 1500 tick (run ∅ [EToggle]) in
  let breakDone := Nat.iter 300 tick (toggleTimer (toggleTimer focusDone)) in
  sessionsCount (state breakDone) = JS.Num 1 /\
  totalBreakTime (state breakDone) = JS.Num 5 /\
  focusCompletedInCurrentCycle (state breakDone) = false.
Proof. vm_compute. repeat split; reflexivity. Qed.

Example break_alone_counts_none :
  let breakDone := Nat.iter 300 tick (run ∅ [ESkip; EToggle]) in
  status (state breakDone) = Alarm /\
  sessionsCount (state breakDone) = JS.Num 0.
Proof. vm_compute. split; reflexivity. Qed.

(** The store is part of the invariant: a duration text that no
    handler writes, or minutes that no caller passes, fall outside it. *)
Example mount_foreign_store :
  ~ timeInv (state (mount {[ "pomodoro_focus_duration" := "-5" ]})).
Proof. intros (H0 & _). vm_compute in H0. discriminate H0. Qed.

Example updateDuration_negative :
  ~ timeInv (state (updateDuration (JS.Num (-1)) (mount ∅))).
Proof. intros (H0 & _). vm_compute in H0. discriminate H0. Qed.

Example dial_samples :
  ConfigDial.getMinutesForAngle 5 60 (90 # 1) = 15 /\
  ConfigDial.getMinutesForAngle 5 60 (4 # 1) = 5 /\
  ConfigDial.getMinutesForAngle 5 60 (2 # 1) = 60 /\
  ConfigDial.getMinutesForAngle 1 30 (357 # 1) = 30 /\
  ConfigDial.getMinutesForAngle 1 30 (359 # 2) = 30 /\
  ConfigDial.getMinutesForAngle 5 60 0 = 60.
Proof. repeat split; reflexivity. Qed.

(** ** Instances of the theorems *)


Lemma tick_completion_bookkeeping_witness :
  totalBreakTime (state (tick lastSecondOfBreak)) = JS.Num (0 + 300 / 60) /\
  sessionsCount (state (tick lastSecondOfBreak)) = JS.Num (0 + 1).
Proof.
  destruct (tick_completion_bookkeeping lastSecondOfBreak 1 300 0 25 0)
    as (_ & Hbreak); [reflexivity | lia | reflexivity ..|].
  destruct (Hbreak eq_refl) as (Htb & _ & _ & Hset & _).
  destruct (Hset eq_refl) as (Hn & _).
  split; [exact Htb | exact Hn].
Defined.

Lemma resetTimer_spec_witness :
  duration (state (resetTimer configuringTenMinutes)) = JS.Num 1500 /\
  getItem (localStorage (resetTimer configuringTenMinutes))
    "pomodoro_focus_duration" = Some "1500".
Proof.
  pose proof (resetTimer_spec configuringTenMinutes) as (_ & _ & Hopen & _).
  destruct (Hopen eq_refl) as (Hd & _ & Hs & _).
  split; [exact Hd | exact Hs].
Defined.

Lemma skipTimer_spec_witness :
  focusCompletedInCurrentCycle (state (skipTimer lastSecondOfBreak)) = false /\
  mode (state (skipTimer lastSecondOfBreak)) = Focus /\
  duration (state (skipTimer lastSecondOfBreak)) = JS.Num 1500.
Proof.
  pose proof (skipTimer_spec lastSecondOfBreak)
    as (Hflag & _ & _ & Hmode & _ & _ & Habsent & _).
  destruct (Habsent eq_refl) as (Hd & _).
  split; [exact Hflag | split; [exact (Hmode eq_refl) | exact Hd]].
Defined.

Lemma angle_round_trip_witness :
  ConfigDial.getMinutesForAngle 5 60
    (inject_Z (ConfigDial.getAngleForMinutes 60)) = 60 /\
  ConfigDial.getMinutesForAngle 1 30
    (inject_Z (ConfigDial.getAngleForMinutes 17)) = 17.
Proof.
  split.
  - apply (proj2 (proj2 angle_round_trip) Focus 60).
    change (ConfigDial.minVal Focus) with 5.
    change (ConfigDial.maxVal Focus) with 60. lia.
  - apply (proj2 (proj2 angle_round_trip) Break 17).
    change (ConfigDial.minVal Break) with 1.
    change (ConfigDial.maxVal Break) with 30. lia.
Defined.

Lemma getMinutesForAngle_range_witness :
  1 <= ConfigDial.getMinutesForAngle 1 30 0 <= 30 /\
  ConfigDial.getMinutesForAngle 1 30 0 <> 0.
Proof.
  destruct (getMinutesForAngle_range 1 30 0) as (Hr & Hnz & _);
    [lia | lia | lia | discriminate | reflexivity |].
  split; [exact Hr | exact Hnz].
Defined.

Lemma handleSubmit_spec_witness :
  TimeInputModal.handleSubmit onConfirm Focus (TimeInputModal.initial Focus)
    configuringTenMinutes
  = (TimeInputModal.initial Focus,
     setIsInputModalOpen false
       (updateDuration (JS.Num 25) configuringTenMinutes)) /\
  TimeInputModal.error
    (fst (TimeInputModal.handleSubmit onConfirm Focus
            (TimeInputModal.onChange "abc" (TimeInputModal.initial Focus))
            configuringTenMinutes))
  = Some "Value between 5 and 60" /\
  snd (TimeInputModal.handleSubmit onConfirm Focus
         (TimeInputModal.onChange "abc" (TimeInputModal.initial Focus))
         configuringTenMinutes)
  = configuringTenMinutes.
Proof.
  split.
  - apply (proj1 (proj2 (handleSubmit_spec Focus
                           (TimeInputModal.initial Focus)))
             configuringTenMinutes 25).
    split; [reflexivity |].
    change (TimeInputModal.isEasterEggActive (TimeInputModal.initial Focus))
      with false.
    change (TimeInputModal.min Focus) with 5.
    change (TimeInputModal.max Focus) with 60. cbv iota. lia.
  - destruct (proj1 (proj2 (proj2
                (handleSubmit_spec Focus
                   (TimeInputModal.onChange "abc"
                      (TimeInputModal.initial Focus)))))
                configuringTenMinutes)
      as (_ & _ & Hs & He & _).
    + intros n [Hn _]. vm_compute in Hn. discriminate Hn.
    + split; [exact He | exact Hs].
Defined.

Lemma running_implies_config_closed_witness :
  configOpen
    (state (run ∅ [EOpenConfig; EUpdateDuration (JS.Num 10); EToggle; ETick]))
  = false.
Proof.
  apply (proj2 (proj2 (proj2 (proj2 running_implies_config_closed))) ∅
           [EOpenConfig; EUpdateDuration (JS.Num 10); EToggle; ETick]).
  vm_compute. reflexivity.
Defined.

(** * Further properties of the component *)

(** ** Reading back what the handlers store *)

Lemma parseSaved_toString_any (n dflt : JS.number) :
  parseSaved (Some (JS.toString n)) dflt = n.
Proof. destruct n as [z|]; [apply parseSaved_toString | reflexivity]. Qed.

Lemma cycleFlag_readback (b : bool) :
  bool_decide (Some (JS.boolToString b) = Some "true") = b.
Proof. destruct b; reflexivity. Qed.

Lemma getSavedDuration_setItem_any
  (ls : gmap string string) (m : TimerMode) (n : JS.number) :
  getSavedDuration (setItem (STORAGE_KEYS (modeKey m)) (JS.toString n) ls) m
  = n.
Proof.
  unfold getSavedDuration, getItem, setItem.
  rewrite lookup_insert_eq. apply parseSaved_toString_any.
Qed.

Lemma getItem_storeItem_eq (k : StorageKey) (v : string) (a : App) :
  getItem (localStorage (storeItem k v a)) (STORAGE_KEYS k) = Some v.
Proof. unfold getItem, storeItem, setItem. cbn [localStorage]. apply lookup_insert_eq. Qed.

Lemma STORAGE_KEYS_inj (k k' : StorageKey) :
  STORAGE_KEYS k = STORAGE_KEYS k' -> k = k'.
Proof. destruct k, k'; intros H; first [reflexivity | discriminate H]. Qed.

Lemma getItem_storeItem_ne (k k' : StorageKey) (v : string) (a : App) :
  k <> k' ->
  getItem (localStorage (storeItem k v a)) (STORAGE_KEYS k')
  = getItem (localStorage a) (STORAGE_KEYS k').
Proof.
  intros Hne. unfold getItem, storeItem, setItem. cbn [localStorage].
  apply lookup_insert_ne. intros H. apply STORAGE_KEYS_inj in H. congruence.
Qed.

(** Lookups in a store built by [storeItem]s, key by key. *)
Ltac store_lookup :=
  repeat first
    [ rewrite getItem_storeItem_eq
    | rewrite getItem_storeItem_ne by discriminate ].

Lemma statsSynced_persistStats (a : App) : statsSynced (persistStats a).
Proof.
  unfold statsSynced, persistStats. cbv zeta.
  repeat split; store_lookup; reflexivity.
Qed.

Lemma statsSynced_mount (ls : gmap string string) : statsSynced (mount ls).
Proof. apply statsSynced_persistStats. Qed.

Lemma state_mount (ls : gmap string string) :
  state (mount ls) = initialState ls.
Proof. reflexivity. Qed.

(** A synced store gives the statistics back at the next start. *)
Lemma statsSynced_reload (a : App) :
  statsSynced a ->
  statsDeps (initialState (localStorage a)) = statsDeps (state a).
Proof.
  intros (Hn & Hf & Hb & Hc). unfold statsDeps, initialState.
  cbn [sessionsCount totalFocusTime totalBreakTime
       focusCompletedInCurrentCycle].
  rewrite Hn, Hf, Hb, Hc, !parseSaved_toString_any, cycleFlag_readback.
  reflexivity.
Qed.

(** ** clearStats *)

(** X1.  [clearStats] zeroes the three counters and the cycle flag,
    writes "0", "0", "0" and "false" under the four statistics keys, and
    touches nothing else: mode, status, overlay, duration, remaining
    time, both duration keys and the alert log stay as they were.  The
    next start reads the zeroes back. *)
Theorem clearStats_spec (a : App) :
  let a' := clearStats a in
  statsDeps (state a') = (JS.Num 0, JS.Num 0, JS.Num 0, false) /\
  (mode (state a'), status (state a'), configOpen (state a'),
   duration (state a'), remainingTime (state a'))
  = (mode (state a), status (state a), configOpen (state a),
     duration (state a), remainingTime (state a)) /\
  getItem (localStorage a') (STORAGE_KEYS K_sessionsCount) = Some "0" /\
  getItem (localStorage a') (STORAGE_KEYS K_totalFocusTime) = Some "0" /\
  getItem (localStorage a') (STORAGE_KEYS K_totalBreakTime) = Some "0" /\
  getItem (localStorage a') (STORAGE_KEYS K_focusCompletedInCurrentCycle)
    = Some "false" /\
  (forall m, getItem (localStorage a') (STORAGE_KEYS (modeKey m))
             = getItem (localStorage a) (STORAGE_KEYS (modeKey m))) /\
  alerts a' = alerts a /\
  statsDeps (initialState (localStorage a'))
    = (JS.Num 0, JS.Num 0, JS.Num 0, false) /\
  localStorage (step a EClearStats) = localStorage a'.
Proof.
  cbv zeta.
  assert (Hsync : statsSynced (clearStats a)).
  { unfold statsSynced, clearStats. cbv zeta.
    repeat split; store_lookup; reflexivity. }
  split; [reflexivity | split; [reflexivity |]].
  unfold clearStats at 1 2 3 4 5 6.
  repeat split; store_lookup; try reflexivity.
  - intros m. destruct m; store_lookup; reflexivity.
  - now rewrite (statsSynced_reload _ Hsync).
  - unfold step, runEffects. cbn [handle]. case_decide; [reflexivity |].
    apply map_eq. intros key.
    destruct Hsync as (Hn & Hf & Hb & Hc). unfold getItem in *.
    unfold persistStats, storeItem, setItem. cbn [localStorage state].
    repeat (rewrite lookup_insert; case_decide; subst;
            [first [now rewrite Hn | now rewrite Hf
                   | now rewrite Hb | now rewrite Hc] |]).
    reflexivity.
Qed.

(** ** The statistics survive a reload *)

(** What each handler leaves in the store under a statistics key. *)
Lemma stats_keys_handle (e : Event) (a : App) (k : StorageKey) :
  statsKey k = true ->
  e <> EClearStats -> e <> EReload ->
  getItem (localStorage (handle e a)) (STORAGE_KEYS k)
  = getItem (localStorage a) (STORAGE_KEYS k).
Proof.
  intros Hk Hc Hr. destruct e; try congruence; cbn [handle]; try reflexivity.
  - unfold toggleTimer. case_bool_decide; reflexivity.
  - unfold tick.
    destruct (JS.leb (remainingTime (state a)) (JS.Num 1)); reflexivity.
  - rewrite localStorage_resetTimer.
    destruct (configOpen (state a)); [|reflexivity].
    unfold getItem, setItem. apply lookup_insert_ne.
    intros H. apply STORAGE_KEYS_inj in H. subst k.
    destruct (mode (state a)); discriminate Hk.
  - unfold updateDuration. proj_simpl. unfold getItem, setItem.
    apply lookup_insert_ne.
    intros H. apply STORAGE_KEYS_inj in H. subst k.
    destruct (mode (state a)); discriminate Hk.
Qed.

Lemma statsSynced_step (a : App) (e : Event) :
  statsSynced a -> statsSynced (step a e).
Proof.
  intros Ha. unfold step, runEffects.
  case_decide as Hdeps; [|apply statsSynced_persistStats].
  assert (He : e = EClearStats \/ e = EReload \/
               (e <> EClearStats /\ e <> EReload))
    by (destruct e; auto; right; right; split; discriminate).
  destruct He as [-> | [-> | [Hc Hr]]].
  { unfold statsSynced, handle, clearStats. cbv zeta.
    repeat split; store_lookup; reflexivity. }
  { apply statsSynced_mount. }
  destruct Ha as (Hn & Hf & Hb & Hg).
  injection Hdeps as En Ef Eb Eg.
  unfold statsSynced. cbv zeta.
  rewrite !stats_keys_handle by (first [reflexivity | assumption]).
  rewrite <- En, <- Ef, <- Eb, <- Eg. repeat split; assumption.
Qed.

Lemma statsSynced_run (ls : gmap string string) (es : list Event) :
  statsSynced (run ls es).
Proof.
  unfold run. generalize (statsSynced_mount ls). generalize (mount ls).
  induction es as [|e es IH]; intros a Ha; [exact Ha|].
  cbn [fold_left]. apply IH. now apply statsSynced_step.
Qed.

(** X2.  Started on a fresh store and driven by any events (the
    duration updates within the exact range), the store holds the text
    of the current counters and cycle flag after every event, and, as
    long as the counters are within the exact range, a reload starts
    with exactly the same [sessionsCount], [totalFocusTime],
    [totalBreakTime] and cycle flag. *)
Theorem reload_restores_statistics (es : list Event) :
  forallb eventExact es = true ->
  exactCounters (state (run ∅ es)) = true ->
  statsSynced (run ∅ es) /\
  statsDeps (state (run ∅ (es ++ [EReload]))) = statsDeps (state (run ∅ es)).
Proof.
  intros _ _. split; [apply statsSynced_run |].
  unfold run. rewrite fold_left_app. cbn [fold_left].
  fold (run ∅ es). unfold step, runEffects. cbn [handle].
  pose proof (statsSynced_reload _ (statsSynced_run ∅ es)) as H.
  case_decide; rewrite ?state_mount; exact H.
Qed.

(** ** toggleTimer *)

Lemma toggleTimer_not_alarm (a : App) :
  status (state a) <> Alarm ->
  toggleTimer a =
  setState (fun prev =>
    {| mode := mode prev;
       status :=
         if bool_decide (status prev = Running) then Paused else Running;
       configOpen := false;
       duration := duration prev;
       remainingTime := remainingTime prev;
       sessionsCount := sessionsCount prev;
       totalFocusTime := totalFocusTime prev;
       totalBreakTime := totalBreakTime prev;
       focusCompletedInCurrentCycle := focusCompletedInCurrentCycle prev |}) a.
Proof. intros H. unfold toggleTimer. now case_bool_decide. Qed.

Lemma toggleTimer_alarm (a : App) :
  status (state a) = Alarm -> toggleTimer a = switchMode (stopSound a).
Proof. intros H. unfold toggleTimer. now case_bool_decide. Qed.

(** X3.  Outside an alarm, toggling only flips the status (running to
    paused, idle or paused to running) and closes the overlay: mode,
    duration, remaining time, statistics, store and alert log are
    untouched, so pausing a running countdown and resuming it gives the
    same state back.  In an alarm, toggling stops the sound and moves,
    idle, to the other mode with that mode's stored duration. *)
Theorem toggleTimer_spec (a : App) :
  (status (state a) <> Alarm ->
     status (state (toggleTimer a))
       = (if bool_decide (status (state a) = Running)
          then Paused else Running) /\
     configOpen (state (toggleTimer a)) = false /\
     (mode (state (toggleTimer a)), duration (state (toggleTimer a)),
      remainingTime (state (toggleTimer a)), statsDeps (state (toggleTimer a)))
     = (mode (state a), duration (state a), remainingTime (state a),
        statsDeps (state a)) /\
     localStorage (toggleTimer a) = localStorage a /\
     alerts (toggleTimer a) = alerts a) /\
  (status (state a) = Running -> configOpen (state a) = false ->
     status (state (toggleTimer a)) = Paused /\
     toggleTimer (toggleTimer a) = a) /\
  (status (state a) = Alarm ->
     status (state (toggleTimer a)) = Idle /\
     mode (state (toggleTimer a)) = flipMode (mode (state a)) /\
     duration (state (toggleTimer a))
       = getSavedDuration (localStorage a) (flipMode (mode (state a))) /\
     remainingTime (state (toggleTimer a)) = duration (state (toggleTimer a)) /\
     alerts (toggleTimer a) = StopSound :: alerts a).
Proof.
  split; [|split].
  - intros H. rewrite (toggleTimer_not_alarm a H). repeat split.
  - intros Hrun Hcfg.
    assert (H : status (state a) <> Alarm) by congruence.
    rewrite (toggleTimer_not_alarm a H). proj_simpl. rewrite Hrun.
    split; [reflexivity |].
    rewrite toggleTimer_not_alarm by (proj_simpl; rewrite Hrun; discriminate).
    destruct a as [ls [m st co d r n tf tb fl] io al].
    cbn in Hrun, Hcfg. subst st co. reflexivity.
  - intros H. rewrite (toggleTimer_alarm a H). repeat split.
Qed.

(** ** openConfig and closeConfig *)

(** X4.  Opening the overlay pauses the timer and puts the full
    duration back into [remainingTime]; closing it only clears
    [configOpen].  So a visit to the overlay leaves the session paused
    at its full length, whatever part of the countdown had elapsed, and
    changes nothing else (mode, duration, statistics, store, alerts). *)
Theorem openConfig_closeConfig (a : App) :
  closeConfig (openConfig a) =
  setState (fun prev =>
    {| mode := mode prev;
       status := Paused;
       configOpen := false;
       duration := duration prev;
       remainingTime := duration prev;
       sessionsCount := sessionsCount prev;
       totalFocusTime := totalFocusTime prev;
       totalBreakTime := totalBreakTime prev;
       focusCompletedInCurrentCycle := focusCompletedInCurrentCycle prev |}) a
  /\
  openConfig (openConfig a) = openConfig a /\
  (forall r d : Z,
     remainingTime (state a) = JS.Num r -> duration (state a) = JS.Num d ->
     r < d ->
     remainingTime (state (closeConfig (openConfig a))) <> remainingTime (state a)).
Proof.
  split; [reflexivity | split; [reflexivity |]].
  intros r d Hr Hd Hlt. proj_simpl. cbn. rewrite Hr, Hd.
  intros H. injection H. lia.
Qed.

(** ** The alert dispatcher *)

(** X5.  The handlers call the alert dispatcher in three places only: a
    tick that reaches zero triggers the alert for the mode that has
    just finished; toggle and reset stop the sound when, and only when,
    the status was alarm.  No other handler calls it. *)
Theorem dispatcher_calls (e : Event) (a : App) :
  alerts (handle e a) =
  match e with
  | ETick =>
      if JS.leb (remainingTime (state a)) (JS.Num 1)
      then TriggerAlert (mode (state a)) :: alerts a
      else alerts a
  | EToggle | EReset =>
      if bool_decide (status (state a) = Alarm)
      then StopSound :: alerts a
      else alerts a
  | EReload => []
  | _ => alerts a
  end.
Proof.
  destruct e; cbn [handle]; try reflexivity.
  - unfold toggleTimer. case_bool_decide; reflexivity.
  - unfold tick.
    destruct (JS.leb (remainingTime (state a)) (JS.Num 1)); reflexivity.
  - unfold resetTimer. case_bool_decide; proj_simpl;
      destruct (configOpen (state a)); reflexivity.
Qed.

Lemma alerts_runEffects (before : TimerState) (a : App) :
  alerts (runEffects before a) = alerts a /\
  state (runEffects before a) = state a.
Proof. unfold runEffects. case_decide; split; reflexivity. Qed.

Lemma ringingInv_step (a : App) (e : Event) :
  ringingInv a -> ringingInv (step a e).
Proof.
  unfold ringingInv, step. intros Ha.
  destruct (alerts_runEffects (state a) (handle e a)) as [-> ->].
  destruct e; cbn [handle].
  - unfold toggleTimer. case_bool_decide; [discriminate |].
    proj_simpl. case_bool_decide; discriminate.
  - rewrite state_tick. unfold tick, tickState.
    destruct (JS.leb (remainingTime (state a)) (JS.Num 1)).
    + intros _. proj_simpl.
      destruct (bool_decide (mode (state a) = Focus)),
        (focusCompletedInCurrentCycle (state a)); eexists; reflexivity.
    + exact Ha.
  - discriminate.
  - discriminate.
  - rewrite state_resetTimer. destruct (configOpen (state a)); discriminate.
  - discriminate.
  - exact Ha.
  - discriminate.
  - exact Ha.
  - discriminate.
Qed.

(** X6.  In every state of every run, on any store: while the status is
    alarm, the last call to the dispatcher is the alert for the mode on
    display (the sound has been started for the session that finished
    and has not been stopped). *)
Theorem alarm_is_ringing (ls : gmap string string) (es : list Event) :
  status (state (run ls es)) = Alarm ->
  exists earlier,
    alerts (run ls es) = TriggerAlert (mode (state (run ls es))) :: earlier.
Proof.
  change (ringingInv (run ls es)). unfold run.
  assert (H0 : ringingInv (mount ls)) by (unfold ringingInv; discriminate).
  revert H0. generalize (mount ls).
  induction es as [|e es IH]; intros a Ha; [exact Ha|].
  cbn [fold_left]. apply IH. now apply ringingInv_step.
Qed.

(** ** Skipping there and back *)

Lemma flipMode_involutive (m : TimerMode) : flipMode (flipMode m) = m.
Proof. destruct m; reflexivity. Qed.

(** X7.  Skipping twice comes back to the mode one started in, idle,
    with the duration the store holds for that mode in both [duration]
    and [remainingTime], the cycle flag cleared, and the counters, the
    overlay flag, the store and the alert log untouched.  When the
    duration on display was the stored one, only the progress of the
    countdown, the status and the cycle flag are lost. *)
Theorem skipTimer_twice (a : App) :
  let a' := skipTimer (skipTimer a) in
  mode (state a') = mode (state a) /\
  status (state a') = Idle /\
  duration (state a') = getSavedDuration (localStorage a) (mode (state a)) /\
  remainingTime (state a') = duration (state a') /\
  focusCompletedInCurrentCycle (state a') = false /\
  (sessionsCount (state a'), totalFocusTime (state a'),
   totalBreakTime (state a'), configOpen (state a'))
  = (sessionsCount (state a), totalFocusTime (state a),
     totalBreakTime (state a), configOpen (state a)) /\
  localStorage a' = localStorage a /\
  alerts a' = alerts a /\
  (durationSynced a -> duration (state a') = duration (state a)).
Proof.
  cbv zeta. rewrite (state_skipTimer (skipTimer a)). cbv zeta. proj_simpl.
  rewrite (state_skipTimer a). cbv zeta. proj_simpl.
  rewrite flipMode_involutive.
  repeat split. intros H. symmetry. exact H.
Qed.

(** ** The duration on display and the stored one *)

Lemma durationSynced_runEffects (before : TimerState) (a : App) :
  durationSynced a -> durationSynced (runEffects before a).
Proof.
  unfold durationSynced, runEffects. intros Ha.
  case_decide; [exact Ha |].
  unfold persistStats, storeItem. cbn [localStorage state].
  now rewrite !getSavedDuration_setItem_stats by reflexivity.
Qed.

Lemma durationSynced_mount (ls : gmap string string) :
  durationSynced (mount ls).
Proof.
  unfold durationSynced, mount, persistStats, storeItem.
  cbn [localStorage state].
  now rewrite !getSavedDuration_setItem_stats by reflexivity.
Qed.

Lemma DEFAULTS_toString (ls : gmap string string) (m : TimerMode) :
  getSavedDuration
    (setItem (STORAGE_KEYS (modeKey m)) (JS.toString (DEFAULTS m)) ls) m
  = DEFAULTS m.
Proof. apply getSavedDuration_setItem_any. Qed.

Lemma durationSynced_handle (e : Event) (a : App) :
  notZeroUpdate e = true -> durationSynced a -> durationSynced (handle e a).
Proof.
  unfold durationSynced. intros He Ha. destruct e; cbn [handle].
  - unfold toggleTimer. case_bool_decide; [reflexivity | exact Ha].
  - rewrite state_tick. unfold tick, tickState.
    destruct (JS.leb (remainingTime (state a)) (JS.Num 1)); [|exact Ha].
    destruct (bool_decide (mode (state a) = Focus)),
      (focusCompletedInCurrentCycle (state a)); exact Ha.
  - reflexivity.
  - reflexivity.
  - rewrite state_resetTimer, localStorage_resetTimer.
    destruct (configOpen (state a)); proj_simpl; [|exact Ha].
    symmetry. apply DEFAULTS_toString.
  - exact Ha.
  - exact Ha.
  - unfold updateDuration. proj_simpl. cbn [notZeroUpdate] in He.
    apply negb_true_iff in He. rewrite He.
    symmetry. apply getSavedDuration_setItem_any.
  - unfold clearStats, storeItem. cbn [localStorage state setState].
    proj_simpl. now rewrite !getSavedDuration_setItem_stats by reflexivity.
  - apply durationSynced_mount.
Qed.

Lemma durationSynced_fold (es : list Event) (a : App) :
  forallb notZeroUpdate es = true -> durationSynced a ->
  durationSynced (fold_left step es a).
Proof.
  revert a. induction es as [|e es IH]; intros a Hes Ha; [exact Ha|].
  cbn in Hes. apply andb_prop in Hes as [He Hes].
  cbn [fold_left]. apply IH; [exact Hes |].
  unfold step. now apply durationSynced_runEffects, durationSynced_handle.
Qed.

Lemma exactNonzeroUpdate_notZero (es : list Event) :
  forallb exactNonzeroUpdate es = true -> forallb notZeroUpdate es = true.
Proof.
  induction es as [|e es IH]; [reflexivity |]. cbn [forallb].
  intros H. apply andb_prop in H as [He Hes].
  apply andb_true_intro. split; [|now apply IH].
  destruct e; try reflexivity. cbn [exactNonzeroUpdate notZeroUpdate] in *.
  now apply andb_prop in He as [He _].
Qed.

(** X8.  As long as every duration update is to an integer number of
    minutes other than zero whose seconds are within the exact range,
    the session length on display is, after every event and on any
    initial store, exactly what the store hands back for the mode on
    display. *)
Theorem duration_matches_store
  (ls : gmap string string) (es : list Event) :
  forallb exactNonzeroUpdate es = true ->
  duration (state (run ls es))
  = getSavedDuration (localStorage (run ls es)) (mode (state (run ls es))).
Proof.
  intros Hes. apply exactNonzeroUpdate_notZero in Hes.
  change (durationSynced (run ls es)). unfold run.
  apply durationSynced_fold; [exact Hes | apply durationSynced_mount].
Qed.

(** ** Which handler writes which duration *)

(** X9.  The stored duration of a mode changes only through
    [updateDuration] or through [resetTimer] with the overlay open, and
    then only for the mode on display: no handler ever writes the other
    mode's duration, and tick, toggle, skip, switchMode, openConfig,
    closeConfig, clearStats, a reload and the statistics effect leave
    both duration keys alone. *)
Theorem duration_keys_footprint (e : Event) (a : App) (m : TimerMode) :
  getItem (localStorage (step a e)) (STORAGE_KEYS (modeKey m))
    <> getItem (localStorage a) (STORAGE_KEYS (modeKey m)) ->
  m = mode (state a) /\
  ((e = EReset /\ configOpen (state a) = true) \/
   exists newMinutes, e = EUpdateDuration newMinutes).
Proof.
  unfold step. rewrite runEffects_duration_keys. intros Hne.
  destruct e; cbn [handle] in Hne.
  - exfalso. apply Hne. unfold toggleTimer. case_bool_decide; reflexivity.
  - exfalso. apply Hne. unfold tick.
    destruct (JS.leb (remainingTime (state a)) (JS.Num 1)); reflexivity.
  - exfalso. now apply Hne.
  - exfalso. now apply Hne.
  - rewrite localStorage_resetTimer in Hne.
    destruct (configOpen (state a)); [|exfalso; now apply Hne].
    split; [|left; split; reflexivity].
    destruct (decide (m = mode (state a))) as [-> | Hm]; [reflexivity |].
    exfalso. apply Hne. unfold getItem, setItem. apply lookup_insert_ne.
    intros H. apply duration_key_inj in H. congruence.
  - exfalso. now apply Hne.
  - exfalso. now apply Hne.
  - split; [|right; eexists; reflexivity].
    destruct (decide (m = mode (state a))) as [-> | Hm]; [reflexivity |].
    exfalso. apply Hne. unfold updateDuration. proj_simpl.
    unfold getItem, setItem. apply lookup_insert_ne.
    intros H. apply duration_key_inj in H. congruence.
  - exfalso. apply Hne. unfold clearStats. proj_simpl.
    unfold getItem, setItem.
    rewrite !lookup_insert_ne; [reflexivity | destruct m; discriminate ..].
  - exfalso. apply Hne. unfold mount, persistStats. proj_simpl.
    unfold getItem, setItem.
    rewrite !lookup_insert_ne; [reflexivity | destruct m; discriminate ..].
Qed.

(** ** The counters *)

Lemma statsInv_of_deps (s s' : TimerState) :
  statsDeps s' = statsDeps s -> statsInv s -> statsInv s'.
Proof.
  unfold statsDeps, statsInv. intros H. injection H as -> -> -> _. auto.
Qed.

Lemma statsInv_tickState (s : TimerState) :
  JS.leb (JS.Num 0) (duration s) = true ->
  statsInv s -> statsInv (tickState s).
Proof.
  intros Hd (Hn & Hf & Hb). unfold tickState, statsInv.
  destruct (leb_nonneg_inv _ Hd) as (d & -> & Hd0).
  destruct (leb_nonneg_inv _ Hn) as (n & En & Hn0).
  destruct (leb_nonneg_inv _ Hf) as (tf & Ef & Hf0).
  destruct (leb_nonneg_inv _ Hb) as (tb & Eb & Hb0).
  pose proof (Z.div_pos d 60 Hd0 ltac:(lia)) as Hq.
  destruct (JS.leb (remainingTime s) (JS.Num 1)).
  - destruct (bool_decide (mode s = Focus)),
      (focusCompletedInCurrentCycle s); proj_simpl;
      rewrite ?En, ?Ef, ?Eb; proj_simpl; cbn [negb];
      repeat split; apply Z.leb_le; lia.
  - proj_simpl. rewrite En, Ef, Eb. repeat split; apply Z.leb_le; lia.
Qed.

Lemma statsInv_handle (e : Event) (a : App) :
  e <> EReload -> timeInv (state a) ->
  statsInv (state a) -> statsInv (state (handle e a)).
Proof.
  intros He Ht Hs. destruct e; try congruence; cbn [handle];
    try exact Hs.
  - unfold toggleTimer. case_bool_decide; exact Hs.
  - rewrite state_tick. apply statsInv_tickState; [|exact Hs].
    now apply timeInv_duration_nonneg.
  - rewrite state_resetTimer. destruct (configOpen (state a)); exact Hs.
  - repeat split.
Qed.

(** The three invariants that travel together. *)
Lemma counters_step (a : App) (e : Event) :
  eventOk e = true ->
  appInv a /\ statsInv (state a) /\ statsSynced a ->
  appInv (step a e) /\ statsInv (state (step a e)) /\ statsSynced (step a e).
Proof.
  intros He (Hi & Hs & Hy).
  split; [now apply appInv_step | split; [|now apply statsSynced_step]].
  unfold step. destruct (alerts_runEffects (state a) (handle e a)) as [_ ->].
  assert (Hr : e = EReload \/ e <> EReload)
    by (destruct e; auto; right; discriminate).
  destruct Hr as [-> | Hr].
  - cbn [handle]. rewrite state_mount.
    apply (statsInv_of_deps (state a)); [|exact Hs].
    now apply statsSynced_reload.
  - apply statsInv_handle; [exact Hr | apply Hi | exact Hs].
Qed.

(** X10.  Started on a fresh store and driven by any events (the
    duration updates with non-negative integers), the three counters
    [sessionsCount], [totalFocusTime] and [totalBreakTime] are
    non-negative integers in every state, also across reloads. *)
Theorem counters_nonnegative (es : list Event) :
  forallb eventOk es = true ->
  exists n tf tb : Z,
    sessionsCount (state (run ∅ es)) = JS.Num n /\
    totalFocusTime (state (run ∅ es)) = JS.Num tf /\
    totalBreakTime (state (run ∅ es)) = JS.Num tb /\
    0 <= n /\ 0 <= tf /\ 0 <= tb.
Proof.
  intros Hes.
  assert (H : appInv (run ∅ es) /\ statsInv (state (run ∅ es))
              /\ statsSynced (run ∅ es)).
  { unfold run.
    assert (H0 : appInv (mount ∅) /\ statsInv (state (mount ∅))
                 /\ statsSynced (mount ∅)).
    { split; [apply appInv_mount, storeOk_empty |].
      split; [repeat split | apply statsSynced_mount]. }
    revert H0 Hes. generalize (mount ∅).
    induction es as [|e es IH]; intros a Ha Hes; [exact Ha|].
    cbn in Hes. apply andb_prop in Hes as [He Hes].
    cbn [fold_left]. apply IH; [|exact Hes]. now apply counters_step. }
  destruct H as (_ & (Hn & Hf & Hb) & _).
  destruct (leb_nonneg_inv _ Hn) as (n & En & Hn0).
  destruct (leb_nonneg_inv _ Hf) as (tf & Ef & Hf0).
  destruct (leb_nonneg_inv _ Hb) as (tb & Eb & Hb0).
  exists n, tf, tb. repeat split; assumption.
Qed.

(** ** From the dial to the timer *)

Lemma dial_bounds (m : TimerMode) :
  1 <= ConfigDial.minVal m /\ ConfigDial.minVal m <= ConfigDial.maxVal m /\
  ConfigDial.maxVal m <= 60.
Proof.
  destruct m.
  - change (ConfigDial.minVal Focus) with 5.
    change (ConfigDial.maxVal Focus) with 60. lia.
  - change (ConfigDial.minVal Break) with 1.
    change (ConfigDial.maxVal Break) with 30. lia.
Qed.

Lemma minutesForAngle_bounds (m : TimerMode) (degrees : Q) :
  ConfigDial.minVal m <= ConfigDial.minutesForAngle m degrees
    <= ConfigDial.maxVal m.
Proof.
  unfold ConfigDial.minutesForAngle. apply getMinutesForAngle_clamped.
  apply dial_bounds.
Qed.

(** X11.  Wherever the pointer is, a dial event sets a whole number of
    minutes within the bounds of the mode on display (5 to 60 for
    focus, 1 to 30 for break): [duration] and [remainingTime] become
    that many minutes in seconds, never the one-second floor, the
    timer goes idle with the cycle flag cleared, and the store hands
    the same duration back for the mode. *)
Theorem handlePointerAngle_spec (degrees : Q) (a : App) :
  let a' := UI.handlePointerAngle degrees a in
  exists minutes : Z,
    ConfigDial.minVal (mode (state a)) <= minutes
      <= ConfigDial.maxVal (mode (state a)) /\
    1 <= minutes <= 60 /\
    duration (state a') = JS.Num (minutes * 60) /\
    remainingTime (state a') = JS.Num (minutes * 60) /\
    status (state a') = Idle /\
    focusCompletedInCurrentCycle (state a') = false /\
    mode (state a') = mode (state a) /\
    getSavedDuration (localStorage a') (mode (state a'))
      = duration (state a').
Proof.
  cbv zeta. unfold UI.handlePointerAngle.
  pose proof (minutesForAngle_bounds (mode (state a)) degrees) as Hb.
  pose proof (dial_bounds (mode (state a))) as Hd.
  set (minutes := ConfigDial.minutesForAngle (mode (state a)) degrees) in *.
  exists minutes. unfold updateDuration. proj_simpl.
  assert (H0 : (minutes =? 0) = false) by zbool. rewrite H0.
  repeat split; try lia.
  apply (getSavedDuration_setItem_eq _ _ (minutes * 60)).
Qed.

(** ** The messages of the manual entry *)

(** X12.  A rejected submit never calls [onConfirm] and only sets the
    error: while the unrestricted mode is off the message is the
    bounds message of the mode ("Value between 5 and 60" for focus,
    "Value between 1 and 30" for break), also when the text is not a
    number at all; "Enter a valid number" appears only while the
    unrestricted mode is on.  A submit never changes the text or the
    click count, and a confirming submit leaves an earlier error
    message in place. *)
Theorem handleSubmit_messages {Parent : Type}
  (f : JS.number -> Parent -> Parent) (m : TimerMode)
  (md : TimeInputModal.Modal) (p : Parent) :
  let r := TimeInputModal.handleSubmit f m md p in
  TimeInputModal.value (fst r) = TimeInputModal.value md /\
  TimeInputModal.clickCount (fst r) = TimeInputModal.clickCount md /\
  ((forall n, ~ TimeInputModal.accepted m md n) ->
     snd r = p /\
     TimeInputModal.error (fst r)
     = Some (if TimeInputModal.isEasterEggActive md
             then "Enter a valid number"
             else TimeInputModal.boundsMessage m)) /\
  (TimeInputModal.isEasterEggActive md = false ->
     JS.parseInt (TimeInputModal.value md) = JS.NaN ->
     r = (TimeInputModal.setError (Some (TimeInputModal.boundsMessage m)) md,
          p)) /\
  (forall n, TimeInputModal.accepted m md n ->
     fst r = md /\ snd r = f (JS.Num n) p) /\
  TimeInputModal.boundsMessage Focus = "Value between 5 and 60" /\
  TimeInputModal.boundsMessage Break = "Value between 1 and 30".
Proof.
  cbv zeta. unfold TimeInputModal.handleSubmit, TimeInputModal.accepted.
  destruct (JS.parseInt (TimeInputModal.value md)) as [k|];
    destruct (TimeInputModal.isEasterEggActive md); cbn.
  1: destruct (Z.ltb_spec k 0); cbn.
  3: destruct (Z.ltb_spec k (TimeInputModal.min m)); cbn;
       [|destruct (Z.ltb_spec (TimeInputModal.max m) k); cbn].
  all: repeat split; try reflexivity; try discriminate.
  all: try match goal with
           | H : JS.Num _ = JS.Num _ /\ _ |- _ =>
               destruct H as [Hj Hb]; injection Hj as ->;
               first [lia | reflexivity]
           | H : JS.NaN = JS.Num _ /\ _ |- _ =>
               destruct H as [Hj _]; discriminate Hj
           | H : forall n, ~ _ |- _ =>
               exfalso; apply (H k); split; [reflexivity | lia]
           end.
Qed.

(** ** The rendered interface *)

Lemma core_runEffects_modal (before : TimerState) (b : bool) (a : App) :
  core (runEffects before (setIsInputModalOpen b a))
  = core (runEffects before a).
Proof.
  unfold runEffects. cbn [state setIsInputModalOpen].
  case_decide; reflexivity.
Qed.

Lemma runEffects_same (a : App) : runEffects (state a) a = a.
Proof. unfold runEffects. case_decide; [reflexivity | congruence]. Qed.

Lemma modal_min_pos (m : TimerMode) : 1 <= TimeInputModal.min m.
Proof.
  destruct m; [change (TimeInputModal.min Focus) with 5
              | change (TimeInputModal.min Break) with 1]; lia.
Qed.

(** Mounting twice on the store the first mount left is mounting once:
    the statistics written are the ones read. *)
Lemma persistStats_synced (a : App) :
  statsSynced a -> localStorage (persistStats a) = localStorage a.
Proof.
  intros (Hn & Hf & Hb & Hc). apply map_eq. intros key.
  unfold getItem in *.
  unfold persistStats, storeItem, setItem. cbn [localStorage state].
  repeat (rewrite lookup_insert; case_decide; subst;
          [first [now rewrite Hn | now rewrite Hf
                 | now rewrite Hb | now rewrite Hc] |]).
  reflexivity.
Qed.

(** Every step of the interface either leaves the core of the app alone
    or is a step of the state machine, with a non-negative integer when
    it is a duration update and, when it is a tick, on a running
    timer. *)
Lemma UI_step_simulated (u : UI.Ui) (e : UI.UiEvent) :
  core (UI.app (UI.step u e)) = core (UI.app u) \/
  exists e' : Event,
    eventOk e' = true /\
    (e' = ETick -> status (state (UI.app u)) = Running) /\
    (TimeInputModal.isEasterEggActive (UI.modal u) = false ->
     notZeroUpdate e' = true) /\
    core (UI.app (UI.step u e)) = core (step (UI.app u) e').
Proof.
  unfold UI.step. destruct (UI.enabled e u) eqn:Hen; [|left; reflexivity].
  destruct e; cbn [UI.fire UI.onApp UI.onModal UI.openModal UI.app].
  - right. exists EToggle. repeat split. discriminate.
  - right. exists EReset. repeat split. discriminate.
  - right. exists ESkip. repeat split. discriminate.
  - right. exists EOpenConfig. repeat split. discriminate.
  - right. exists ECloseConfig. repeat split. discriminate.
  - left. reflexivity.
  - right.
    exists (EUpdateDuration
              (JS.Num (ConfigDial.minutesForAngle
                         (mode (state (UI.app u))) degrees))).
    pose proof (minutesForAngle_bounds (mode (state (UI.app u))) degrees).
    pose proof (dial_bounds (mode (state (UI.app u)))).
    repeat split; [cbn; zbool | discriminate |].
    intros _. cbn. apply negb_true_iff. zbool.
  - left. reflexivity.
  - left. reflexivity.
  - unfold UI.submit.
    destruct (handleSubmit_cases onConfirm (mode (state (UI.app u)))
                (UI.modal u) (UI.app u))
      as [(n & [Hp Hb] & ->) | (_ & msg & ->)]; cbn [UI.app].
    + right. exists (EUpdateDuration (JS.Num n)).
      pose proof (modal_min_pos (mode (state (UI.app u)))).
      repeat split.
      * destruct (TimeInputModal.isEasterEggActive (UI.modal u));
          cbn; zbool.
      * discriminate.
      * intros He. rewrite He in Hb. cbn. apply negb_true_iff. zbool.
      * unfold onConfirm, step. cbn [handle].
        apply core_runEffects_modal.
    + left. now rewrite runEffects_same.
  - left. rewrite core_runEffects_modal. now rewrite runEffects_same.
  - right. exists EClearStats. repeat split. discriminate.
  - right. exists ETick. repeat split.
    intros _. cbn [UI.enabled] in Hen. now apply bool_decide_eq_true in Hen.
  - right. exists EReload. repeat split; [discriminate |].
    unfold step. cbn [handle].
    unfold runEffects. case_decide; [reflexivity |].
    unfold core. cbn [state alerts persistStats storeItem].
    rewrite (persistStats_synced _ (statsSynced_mount _)).
    reflexivity.
Qed.

Lemma overlayInv_step (a : App) (e : Event) :
  (e = ETick -> status (state a) = Running) ->
  overlayInv (state a) -> overlayInv (state (step a e)).
Proof.
  unfold overlayInv, step. intros Hg Ha.
  destruct (alerts_runEffects (state a) (handle e a)) as [_ ->].
  destruct e; cbn [handle].
  - unfold toggleTimer. case_bool_decide;
      [intros [H' | H']; discriminate H' | reflexivity].
  - rewrite state_tick. unfold tickState.
    specialize (Hg eq_refl). intros _.
    assert (Hc : configOpen (state a) = false) by (apply Ha; now left).
    destruct (JS.leb (remainingTime (state a)) (JS.Num 1)); [|exact Hc].
    destruct (bool_decide (mode (state a) = Focus)),
      (focusCompletedInCurrentCycle (state a)); exact Hc.
  - intros [H | H]; discriminate H.
  - intros [H | H]; discriminate H.
  - rewrite state_resetTimer.
    destruct (configOpen (state a)); intros [H | H]; discriminate H.
  - intros [H | H]; discriminate H.
  - reflexivity.
  - intros [H | H]; discriminate H.
  - exact Ha.
  - intros [H | H]; discriminate H.
Qed.

Lemma UI_active_step (u : UI.Ui) (e : UI.UiEvent) :
  overlayInv (state (UI.app u)) /\ ringingInv (UI.app u) ->
  overlayInv (state (UI.app (UI.step u e))) /\
  ringingInv (UI.app (UI.step u e)).
Proof.
  intros [Ho Hr].
  destruct (UI_step_simulated u e) as [H | (e' & _ & Hg & _ & H)];
    unfold core in H; injection H as _ Hs Ha;
    unfold ringingInv; rewrite Hs, Ha.
  - split; assumption.
  - split; [now apply overlayInv_step | now apply ringingInv_step].
Qed.

(** X14.  Through the rendered interface, on any store, the overlay is
    never open while the timer is running or in alarm (the interval
    fires only while running, and opening the overlay pauses), and
    while the alarm lasts the last dispatcher call is the alert for the
    mode on display. *)
Theorem UI_active_timer (ls : gmap string string) (es : list UI.UiEvent) :
  let a := UI.app (UI.run ls es) in
  (status (state a) = Running \/ status (state a) = Alarm ->
   configOpen (state a) = false) /\
  (status (state a) = Alarm ->
   exists earlier, alerts a = TriggerAlert (mode (state a)) :: earlier).
Proof.
  cbv zeta.
  change (overlayInv (state (UI.app (UI.run ls es)))
          /\ ringingInv (UI.app (UI.run ls es))).
  unfold UI.run.
  assert (H0 : overlayInv (state (UI.app (UI.start ls)))
               /\ ringingInv (UI.app (UI.start ls))).
  { split; [intros [H | H]; discriminate H | intros H; discriminate H]. }
  revert H0. generalize (UI.start ls).
  induction es as [|e es IH]; intros u Hu; [exact Hu|].
  cbn [fold_left]. apply IH. now apply UI_active_step.
Qed.

(** ** The main button says what it does *)

(** X15.  The title the control panel gives the main button tells what
    a click on it does: "Pause" exactly when the click leaves the timer
    paused, "Start" exactly when it leaves the timer running, and
    "Acknowledge" exactly when it leaves an alarm, which stops the
    sound and goes idle. *)
Theorem toggleTitle_matches_toggleTimer (a : App) :
  let s' := state (toggleTimer a) in
  (Controls.toggleTitle (state a) = "Pause" <-> status s' = Paused) /\
  (Controls.toggleTitle (state a) = "Start" <-> status s' = Running) /\
  (Controls.toggleTitle (state a) = "Acknowledge" <-> status s' = Idle) /\
  (Controls.toggleTitle (state a) = "Acknowledge" ->
     status (state a) = Alarm /\
     alerts (toggleTimer a) = StopSound :: alerts a) /\
  status s' <> Alarm.
Proof.
  cbv zeta. unfold Controls.toggleTitle, toggleTimer.
  destruct (status (state a)) eqn:Hst;
    repeat (case_bool_decide; try congruence); proj_simpl;
    rewrite ?Hst; repeat (case_bool_decide; try congruence);
    repeat split; intros; try congruence; try discriminate;
    try reflexivity.
Qed.

(** ** The first render *)

Lemma parseSaved_missing (saved : option string) (dflt : JS.number) :
  saved = None \/ saved = Some "" -> parseSaved saved dflt = dflt.
Proof. intros [-> | ->]; reflexivity. Qed.

(** X16.  The first render is always an idle focus session with the
    overlay and the modal closed and no alert, its remaining time equal
    to its duration, whatever mode was on display before.  Where a key
    is missing from the store or holds the empty text the default is
    used (25 minutes, zero counters), so a store without any of the
    keys starts like a fresh one; the cycle flag is restored only from
    the exact text "true". *)
Theorem mount_spec (ls : gmap string string) :
  (mode (state (mount ls)), status (state (mount ls)),
   configOpen (state (mount ls)), isInputModalOpen (mount ls),
   alerts (mount ls))
  = (Focus, Idle, false, false, []) /\
  remainingTime (state (mount ls)) = duration (state (mount ls)) /\
  duration (state (mount ls)) = getSavedDuration ls Focus /\
  ((forall k, getItem ls (STORAGE_KEYS k) = None
              \/ getItem ls (STORAGE_KEYS k) = Some "") ->
   state (mount ls) = state (mount ∅) /\
   duration (state (mount ls)) = JS.Num 1500) /\
  (focusCompletedInCurrentCycle (state (mount ls)) = true <->
   getItem ls (STORAGE_KEYS K_focusCompletedInCurrentCycle) = Some "true").
Proof.
  split; [reflexivity | split; [reflexivity | split; [reflexivity | split]]].
  - intros Hk. rewrite !state_mount. unfold initialState, getSavedDuration.
    cbv zeta.
    rewrite (parseSaved_missing _ _ (Hk K_focus)).
    rewrite (parseSaved_missing _ _ (Hk K_sessionsCount)).
    rewrite (parseSaved_missing _ _ (Hk K_totalFocusTime)).
    rewrite (parseSaved_missing _ _ (Hk K_totalBreakTime)).
    assert (Hf : bool_decide
                   (getItem ls (STORAGE_KEYS K_focusCompletedInCurrentCycle)
                    = Some "true") = false).
    { apply bool_decide_eq_false.
      destruct (Hk K_focusCompletedInCurrentCycle) as [-> | ->]; discriminate. }
    rewrite Hf. split; reflexivity.
  - rewrite state_mount. unfold initialState. cbv zeta.
    cbn [focusCompletedInCurrentCycle]. apply bool_decide_eq_true.
Qed.

(** ** Zero minutes *)

Lemma add_zero (n : JS.number) : JS.add n (JS.Num 0) = n.
Proof. destruct n as [z|]; [cbn; now rewrite Z.add_0_r | reflexivity]. Qed.

(** X17.  A session set to zero minutes lasts one second: started, it
    raises the alarm at the first tick, with the alert for its mode.
    It books no time ([floor(1 / 60) = 0] minutes are added) and,
    because the update cleared the cycle flag, it leaves
    [sessionsCount] alone in either mode; as a focus session it sets
    the cycle flag. *)
Theorem zero_minute_session (a : App) :
  let started := toggleTimer (updateDuration (JS.Num 0) a) in
  let done := tick started in
  status (state started) = Running /\
  remainingTime (state started) = JS.Num 1 /\
  status (state done) = Alarm /\
  remainingTime (state done) = JS.Num 0 /\
  alerts done = TriggerAlert (mode (state a)) :: alerts a /\
  (sessionsCount (state done), totalFocusTime (state done),
   totalBreakTime (state done))
  = (sessionsCount (state a), totalFocusTime (state a),
     totalBreakTime (state a)) /\
  focusCompletedInCurrentCycle (state done)
    = bool_decide (mode (state a) = Focus).
Proof.
  cbv zeta.
  assert (Hst : status (state (updateDuration (JS.Num 0) a)) <> Alarm)
    by (cbn; discriminate).
  rewrite (toggleTimer_not_alarm _ Hst).
  unfold tick, tickState, updateDuration. proj_simpl.
  change (0 =? 0) with true. change (1 <=? 1) with true. proj_simpl.
  change (1 <=? 1) with true. cbv iota. proj_simpl.
  change (1 / 60) with 0.
  rewrite !add_zero.
  destruct (bool_decide (mode (state a) = Focus)); cbn;
    repeat split; reflexivity.
Qed.

(** ** The clock text *)

Lemma string_length_app (s t : string) :
  String.length (s ++ t) = (String.length s + String.length t)%nat.
Proof.
  induction s as [|c s IH]; [reflexivity |].
  change (S (String.length (s ++ t))
          = S (String.length s + String.length t)%nat).
  now rewrite IH.
Qed.

(** Padding a number's text does not change the number it reads as. *)
Lemma parseInt_padStart2 (z : Z) :
  JS.parseInt (CircularTimer.padStart2 (JS.toString (JS.Num z))) = JS.Num z.
Proof.
  pose proof (parseInt_toString z) as Hp.
  pose proof (toString_truthy z) as Hne.
  destruct (JS.toString (JS.Num z)) as [|c [|c' t]];
    [congruence | | exact Hp].
  cbn [CircularTimer.padStart2].
  unfold JS.parseInt in *. cbn [JS.trimStart] in *.
  change (JS.isWhiteSpace "0") with false. cbv iota.
  change (Ascii.eqb "0" "-") with false.
  change (Ascii.eqb "0" "+") with false. cbv iota.
  destruct (JS.isWhiteSpace c); [discriminate Hp |].
  destruct (Ascii.eqb c "-"); [discriminate Hp |].
  destruct (Ascii.eqb c "+"); [discriminate Hp |].
  cbn [JS.digits] in *. change (JS.digitOf "0") with (Some 0).
  cbv iota. cbn [JS.digits default] in *.
  destruct (JS.digitOf c) as [d|]; [|discriminate Hp].
  unfold id in *. injection Hp as <-. f_equal.
Qed.

Lemma padStart2_length_small (k : Z) :
  0 <= k < 100 ->
  String.length (CircularTimer.padStart2 (JS.toString (JS.Num k))) = 2%nat.
Proof.
  intros Hk.
  assert (Hall :
    forallb (fun n =>
      Nat.eqb (String.length
                 (CircularTimer.padStart2
                    (JS.toString (JS.Num (Z.of_nat n))))) 2)
      (seq 0 100) = true) by (vm_compute; reflexivity).
  rewrite forallb_forall in Hall.
  specialize (Hall (Z.to_nat k)).
  rewrite Z2Nat.id in Hall by lia.
  apply Nat.eqb_eq, Hall, in_seq. lia.
Qed.

(** X18.  The clock shows the duration while the overlay is open and
    the remaining time otherwise, as minutes, a colon and seconds.  For
    every number of seconds from 0 to [MAX_SAFE_INTEGER] the two fields
    read back as
    [floor(seconds / 60)] and [seconds mod 60], which add up to the
    seconds on display; the seconds field always has two characters,
    and below 100 minutes so has the minutes field, which makes the
    text five characters long. *)
Theorem timeStr_decodes (s : TimerState) (z : Z) :
  CircularTimer.displaySeconds s = JS.Num z ->
  0 <= z -> z <= MAX_SAFE_INTEGER ->
  let minutesField := CircularTimer.minutesText (JS.Num z) in
  let secondsField := CircularTimer.secondsText (JS.Num z) in
  CircularTimer.displaySeconds s
    = (if configOpen s then duration s else remainingTime s) /\
  CircularTimer.timeStr s = minutesField ++ ":" ++ secondsField /\
  JS.parseInt minutesField = JS.Num (z / 60) /\
  JS.parseInt secondsField = JS.Num (z mod 60) /\
  JS.add (JS.mul (JS.parseInt minutesField) (JS.Num 60))
    (JS.parseInt secondsField) = JS.Num z /\
  String.length secondsField = 2%nat /\
  (z < 6000 -> String.length (CircularTimer.timeStr s) = 5%nat).
Proof.
  intros Hd Hz _. cbv zeta. split; [reflexivity |].
  unfold CircularTimer.timeStr. rewrite Hd.
  unfold CircularTimer.minutesText, CircularTimer.secondsText.
  cbn [JS.floorDiv CircularTimer.remainder].
  rewrite Z.rem_mod_nonneg by lia.
  rewrite !parseInt_padStart2.
  pose proof (Z.mod_pos_bound z 60 ltac:(lia)) as Hm.
  pose proof (Z.div_pos z 60 Hz ltac:(lia)) as Hq.
  split; [reflexivity |].
  split; [reflexivity | split; [reflexivity |]].
  split.
  { cbn [JS.mul JS.add]. f_equal. pose proof (Z.div_mod z 60). lia. }
  split.
  { apply padStart2_length_small. lia. }
  intros Hlt. rewrite !string_length_app.
  rewrite !padStart2_length_small; [reflexivity | lia |].
  split; [exact Hq |]. apply Z.div_lt_upper_bound; lia.
Qed.

(** ** Instances of the further properties *)

Lemma toggleTimer_spec_witness :
  status (state (toggleTimer (toggleTimer configuringTenMinutes))) = Paused /\
  toggleTimer (toggleTimer (toggleTimer configuringTenMinutes))
  = toggleTimer configuringTenMinutes.
Proof.
  apply (proj1 (proj2 (toggleTimer_spec (toggleTimer configuringTenMinutes))));
    reflexivity.
Defined.

Lemma openConfig_closeConfig_witness :
  remainingTime (state (closeConfig (openConfig lastSecondOfBreak)))
  <> remainingTime (state lastSecondOfBreak).
Proof.
  apply (proj2 (proj2 (openConfig_closeConfig lastSecondOfBreak)) 1 300);
    [reflexivity | reflexivity | lia].
Defined.

Lemma alarm_is_ringing_witness :
  exists earlier,
    alerts (run ∅ [EUpdateDuration (JS.Num 0); EToggle; ETick])
    = TriggerAlert
        (mode (state (run ∅ [EUpdateDuration (JS.Num 0); EToggle; ETick])))
        :: earlier.
Proof.
  apply (alarm_is_ringing ∅ [EUpdateDuration (JS.Num 0); EToggle; ETick]).
  vm_compute. reflexivity.
Defined.

Lemma skipTimer_twice_witness :
  duration (state (skipTimer (skipTimer configuringTenMinutes)))
  = duration (state configuringTenMinutes).
Proof.
  destruct (skipTimer_twice configuringTenMinutes)
    as (_ & _ & _ & _ & _ & _ & _ & _ & H).
  apply H. vm_compute. reflexivity.
Defined.

Lemma duration_matches_store_witness :
  duration (state (run ∅ [EUpdateDuration (JS.Num 10); ESkip; ESkip]))
  = getSavedDuration
      (localStorage (run ∅ [EUpdateDuration (JS.Num 10); ESkip; ESkip]))
      (mode (state (run ∅ [EUpdateDuration (JS.Num 10); ESkip; ESkip]))).
Proof.
  apply (duration_matches_store ∅
           [EUpdateDuration (JS.Num 10); ESkip; ESkip]).
  reflexivity.
Defined.

Lemma duration_keys_footprint_witness :
  Focus = mode (state (mount ∅)) /\
  ((EUpdateDuration (JS.Num 10) = EReset
    /\ configOpen (state (mount ∅)) = true) \/
   exists newMinutes,
     EUpdateDuration (JS.Num 10) = EUpdateDuration newMinutes).
Proof.
  apply (duration_keys_footprint (EUpdateDuration (JS.Num 10)) (mount ∅)
           Focus).
  vm_compute. discriminate.
Defined.

Lemma counters_nonnegative_witness :
  exists n tf tb : Z,
    sessionsCount
      (state (run ∅ [EUpdateDuration (JS.Num 0); EToggle; ETick; EReload]))
    = JS.Num n /\
    totalFocusTime
      (state (run ∅ [EUpdateDuration (JS.Num 0); EToggle; ETick; EReload]))
    = JS.Num tf /\
    totalBreakTime
      (state (run ∅ [EUpdateDuration (JS.Num 0); EToggle; ETick; EReload]))
    = JS.Num tb /\
    0 <= n /\ 0 <= tf /\ 0 <= tb.
Proof.
  apply (counters_nonnegative
           [EUpdateDuration (JS.Num 0); EToggle; ETick; EReload]).
  reflexivity.
Defined.

Lemma handleSubmit_messages_witness :
  TimeInputModal.handleSubmit onConfirm Focus
    (TimeInputModal.onChange "abc" (TimeInputModal.initial Focus))
    configuringTenMinutes
  = (TimeInputModal.setError (Some (TimeInputModal.boundsMessage Focus))
       (TimeInputModal.onChange "abc" (TimeInputModal.initial Focus)),
     configuringTenMinutes).
Proof.
  destruct (handleSubmit_messages onConfirm Focus
              (TimeInputModal.onChange "abc" (TimeInputModal.initial Focus))
              configuringTenMinutes)
    as (_ & _ & _ & H & _).
  apply H; reflexivity.
Defined.

Lemma UI_active_timer_witness :
  configOpen
    (state (UI.app (UI.run ∅ [UI.ClickSettings; UI.ClickToggle]))) = false.
Proof.
  apply (proj1 (UI_active_timer ∅ [UI.ClickSettings; UI.ClickToggle])).
  left. vm_compute. reflexivity.
Defined.

Lemma toggleTitle_matches_toggleTimer_witness :
  status (state (toggleTimer configuringTenMinutes)) = Running.
Proof.
  apply (proj1 (proj2 (toggleTitle_matches_toggleTimer
                         configuringTenMinutes))).
  reflexivity.
Defined.

Lemma mount_spec_witness :
  state (mount {[ "pomodoro_focus_duration" := "" ]}) = state (mount ∅) /\
  duration (state (mount {[ "pomodoro_focus_duration" := "" ]}))
  = JS.Num 1500.
Proof.
  apply (proj1 (proj2 (proj2 (proj2
           (mount_spec {[ "pomodoro_focus_duration" := "" ]}))))).
  intros k. destruct k; vm_compute; auto.
Defined.

Lemma timeStr_decodes_witness :
  String.length (CircularTimer.timeStr (state lastSecondOfBreak)) = 5%nat.
Proof.
  destruct (timeStr_decodes (state lastSecondOfBreak) 1)
    as (_ & _ & _ & _ & _ & _ & H);
    [reflexivity | lia | unfold MAX_SAFE_INTEGER; lia |].
  apply H. lia.
Defined.

(** The clock and the interface on concrete input. *)
Example timeStr_samples :
  CircularTimer.timeStr (state (mount ∅)) = "25:00" /\
  CircularTimer.timeStr (state lastSecondOfBreak) = "00:01" /\
  CircularTimer.timeStr
    (state (updateDuration (JS.Num 100) (mount ∅))) = "100:00".
Proof. repeat split; vm_compute; reflexivity. Qed.

Example UI_speedrun :
  let u :=
    UI.run ∅ ([UI.ClickSettings; UI.ClickTime]
              ++ repeat UI.ModalTitleClick 6
              ++ [UI.ModalChange "0"; UI.ModalSubmit;
                  UI.ClickToggle; UI.IntervalTick]) in
  status (state (UI.app u)) = Alarm /\
  duration (state (UI.app u)) = JS.Num 1 /\
  isInputModalOpen (UI.app u) = false.
Proof. vm_compute. repeat split; reflexivity. Qed.

Example UI_disabled_events_ignored :
  UI.run ∅ [UI.DialPointer 90; UI.ModalSubmit; UI.IntervalTick; UI.ClickClose]
  = UI.start ∅.
Proof. reflexivity. Qed.

(** ** A full cycle *)




(** ** Without the hidden mode *)

Lemma durationSynced_core (a b : App) :
  core a = core b -> durationSynced b -> durationSynced a.
Proof.
  unfold core, durationSynced. intros H. injection H as -> -> _. auto.
Qed.

Lemma UI_clicks_step (u : UI.Ui) (e : UI.UiEvent) :
  (TimeInputModal.clickCount (UI.modal (UI.step u e))
   <= TimeInputModal.clickCount (UI.modal u) + titleClicks [e])%nat.
Proof.
  unfold UI.step. destruct (UI.enabled e u); [|lia].
  destruct e; cbn [UI.fire UI.onApp UI.onModal UI.openModal UI.modal
                   titleClicks];
    first
      [ lia
      | cbn; lia
      | destruct (isInputModalOpen (UI.app u)); cbn; lia
      | unfold UI.submit;
        destruct (handleSubmit_cases onConfirm (mode (state (UI.app u)))
                    (UI.modal u) (UI.app u))
          as [(n & _ & ->) | (_ & msg & ->)]; cbn; lia ].
Qed.

Lemma titleClicks_cons (e : UI.UiEvent) (es : list UI.UiEvent) :
  titleClicks (e :: es) = (titleClicks [e] + titleClicks es)%nat.
Proof. destruct e; reflexivity. Qed.

Lemma UI_durationSynced_fold (es : list UI.UiEvent) (u : UI.Ui) :
  durationSynced (UI.app u) ->
  (TimeInputModal.clickCount (UI.modal u) + titleClicks es < 6)%nat ->
  durationSynced (UI.app (fold_left UI.step es u)).
Proof.
  revert u. induction es as [|e es IH]; intros u Hu Hc; [exact Hu|].
  cbn [fold_left]. rewrite titleClicks_cons in Hc.
  pose proof (UI_clicks_step u e) as Hstep.
  apply IH; [|lia].
  assert (Hegg : TimeInputModal.isEasterEggActive (UI.modal u) = false)
    by (unfold TimeInputModal.isEasterEggActive; apply Nat.leb_gt; lia).
  destruct (UI_step_simulated u e) as [H | (e' & _ & _ & Hz & H)].
  - exact (durationSynced_core _ _ H Hu).
  - apply (durationSynced_core _ _ H). unfold step.
    apply durationSynced_runEffects, durationSynced_handle; auto.
Qed.

(** X20.  Through the rendered interface, on any store, the duration on
    display is exactly what the store hands back for the mode on
    display, as long as the modal's title has been clicked fewer than
    six times in all: only the hidden unrestricted mode can make the
    two differ. *)
Theorem UI_duration_matches_store
  (ls : gmap string string) (es : list UI.UiEvent) :
  (titleClicks es < 6)%nat ->
  duration (state (UI.app (UI.run ls es)))
  = getSavedDuration (localStorage (UI.app (UI.run ls es)))
      (mode (state (UI.app (UI.run ls es)))).
Proof.
  intros Hc. change (durationSynced (UI.app (UI.run ls es))).
  unfold UI.run. apply UI_durationSynced_fold.
  - apply durationSynced_mount.
  - exact Hc.
Qed.


Lemma UI_duration_matches_store_witness :
  duration
    (state (UI.app (UI.run ∅ [UI.ClickSettings; UI.DialPointer (90 # 1)])))
  = getSavedDuration
      (localStorage
         (UI.app (UI.run ∅ [UI.ClickSettings; UI.DialPointer (90 # 1)])))
      (mode
         (state
            (UI.app (UI.run ∅ [UI.ClickSettings; UI.DialPointer (90 # 1)])))).
Proof.
  apply (UI_duration_matches_store ∅
           [UI.ClickSettings; UI.DialPointer (90 # 1)]).
  cbn. lia.
Defined.

(** * The invariants within the exact range *)

(** ** A property of the durations, kept by the handlers *)

Section DurationsSatisfy.

Variable P : JS.number -> bool.
Hypothesis P_defaults : forall m, P (DEFAULTS m) = true.

Lemma durationsSatisfy_stats_key
  (ls : gmap string string) (k : StorageKey) (v : string) :
  statsKey k = true ->
  (forall m, P (getSavedDuration ls m) = true) ->
  forall m, P (getSavedDuration (setItem (STORAGE_KEYS k) v ls) m) = true.
Proof.
  intros Hk Hls m. now rewrite getSavedDuration_setItem_stats.
Qed.

Lemma durationsSatisfy_duration_key
  (ls : gmap string string) (m' : TimerMode) (n : JS.number) :
  P n = true ->
  (forall m, P (getSavedDuration ls m) = true) ->
  forall m,
    P (getSavedDuration
         (setItem (STORAGE_KEYS (modeKey m')) (JS.toString n) ls) m) = true.
Proof.
  intros Hn Hls m. destruct (decide (m = m')) as [-> | Hne].
  - now rewrite getSavedDuration_setItem_any.
  - now rewrite getSavedDuration_setItem_other.
Qed.

Lemma durationsSatisfy_persistStats (a : App) :
  durationsSatisfy P a -> durationsSatisfy P (persistStats a).
Proof.
  intros [Hd Hls]. split; [exact Hd |].
  unfold persistStats, storeItem. cbn [localStorage state].
  repeat (apply durationsSatisfy_stats_key; [reflexivity |]). exact Hls.
Qed.

Lemma durationsSatisfy_runEffects (before : TimerState) (a : App) :
  durationsSatisfy P a -> durationsSatisfy P (runEffects before a).
Proof.
  intros Ha. unfold runEffects. case_decide; [exact Ha |].
  now apply durationsSatisfy_persistStats.
Qed.

Lemma durationsSatisfy_mount (ls : gmap string string) :
  (forall m, P (getSavedDuration ls m) = true) ->
  durationsSatisfy P (mount ls).
Proof.
  intros Hls. unfold mount. apply durationsSatisfy_persistStats.
  split; [apply Hls | exact Hls].
Qed.

Lemma durationsSatisfy_handle (e : Event) (a : App) :
  updatesWithin P e = true ->
  durationsSatisfy P a -> durationsSatisfy P (handle e a).
Proof.
  intros He [Hd Hls]. destruct e; cbn [handle].
  - unfold toggleTimer. case_bool_decide.
    + split; [apply Hls | exact Hls].
    + split; [exact Hd | exact Hls].
  - split.
    + rewrite state_tick. unfold tickState.
      destruct (JS.leb (remainingTime (state a)) (JS.Num 1)); [|exact Hd].
      destruct (bool_decide (mode (state a) = Focus)),
        (focusCompletedInCurrentCycle (state a)); exact Hd.
    + unfold tick.
      destruct (JS.leb (remainingTime (state a)) (JS.Num 1)); exact Hls.
  - split; [apply Hls | exact Hls].
  - split; [apply Hls | exact Hls].
  - unfold durationsSatisfy.
    rewrite state_resetTimer, localStorage_resetTimer.
    destruct (configOpen (state a)); proj_simpl.
    + split; [apply P_defaults |].
      apply durationsSatisfy_duration_key; [apply P_defaults | exact Hls].
    + split; [exact Hd | exact Hls].
  - split; [exact Hd | exact Hls].
  - split; [exact Hd | exact Hls].
  - cbn [updatesWithin] in He. apply andb_prop in He as [Hshown Hstored].
    unfold updateDuration. split; proj_simpl; [exact Hshown |].
    apply durationsSatisfy_duration_key; assumption.
  - split; [exact Hd |].
    unfold clearStats, storeItem. cbn [localStorage state setState].
    repeat (apply durationsSatisfy_stats_key; [reflexivity |]). exact Hls.
  - now apply durationsSatisfy_mount.
Qed.

Lemma durationsSatisfy_step (a : App) (e : Event) :
  updatesWithin P e = true ->
  durationsSatisfy P a -> durationsSatisfy P (step a e).
Proof.
  intros He Ha. unfold step.
  now apply durationsSatisfy_runEffects, durationsSatisfy_handle.
Qed.

End DurationsSatisfy.

(** ** The time invariant *)

Lemma exactSeconds_defaults (m : TimerMode) : exactSeconds (DEFAULTS m) = true.
Proof. destruct m; reflexivity. Qed.

Lemma exactSeconds_nonneg (n : JS.number) :
  exactSeconds n = true -> JS.leb (JS.Num 0) n = true.
Proof. unfold exactSeconds. intros H. now apply andb_prop in H as [H _]. Qed.

Lemma eventExact_eventOk (e : Event) : eventExact e = true -> eventOk e = true.
Proof.
  destruct e; try reflexivity. cbn [eventExact eventOk].
  intros H. now apply andb_prop in H as [H _].
Qed.

Lemma eventExact_updatesWithin (e : Event) :
  eventExact e = true -> updatesWithin exactSeconds e = true.
Proof.
  destruct e as [| | | | | | | m | |]; try reflexivity.
  cbn [eventExact updatesWithin]. intros H.
  apply andb_prop in H as [H0 Hmax].
  destruct (leb_nonneg_inv _ H0) as (z & -> & Hz).
  cbn [JS.mul JS.strictEq JS.leb] in *. apply Z.leb_le in Hmax.
  unfold exactSeconds. cbn [JS.leb].
  destruct (Z.eqb_spec z 0) as [-> | Hne]; cbn [JS.leb].
  - reflexivity.
  - apply andb_true_intro. split; apply andb_true_intro; split; zbool.
Qed.

Lemma exactInv_appInv (a : App) : exactInv a -> appInv a.
Proof.
  intros [Ht [_ Hls]]. split; [exact Ht |].
  intros m. apply exactSeconds_nonneg, Hls.
Qed.

Lemma exactInv_mount (ls : gmap string string) :
  storeExact ls -> exactInv (mount ls).
Proof.
  intros Hls. split.
  - apply appInv_mount. intros m. apply exactSeconds_nonneg, Hls.
  - now apply durationsSatisfy_mount.
Qed.

Lemma exactInv_handle (e : Event) (a : App) :
  eventExact e = true -> exactInv a -> exactInv (handle e a).
Proof.
  intros He Ha. split.
  - apply appInv_handle; [now apply eventExact_eventOk |].
    now apply exactInv_appInv.
  - apply (durationsSatisfy_handle exactSeconds exactSeconds_defaults);
      [now apply eventExact_updatesWithin | apply Ha].
Qed.

Lemma exactInv_step (e : Event) (a : App) :
  eventExact e = true -> exactInv a -> exactInv (step a e).
Proof.
  intros He Ha. split.
  - apply appInv_step; [now apply eventExact_eventOk |].
    now apply exactInv_appInv.
  - apply (durationsSatisfy_step exactSeconds exactSeconds_defaults);
      [now apply eventExact_updatesWithin | apply Ha].
Qed.

Lemma exactInv_fold (es : list Event) (a : App) :
  forallb eventExact es = true -> exactInv a ->
  exactInv (fold_left step es a).
Proof.
  revert a. induction es as [|e es IH]; intros a Hes Ha; [exact Ha|].
  cbn in Hes. apply andb_prop in Hes as [He Hes].
  cbn [fold_left]. apply IH; [exact Hes |]. now apply exactInv_step.
Qed.

Lemma storeExact_empty : storeExact ∅.
Proof. intros m. destruct m; reflexivity. Qed.

(** C4, as the code has it.  [0 <= remainingTime <= duration] and
    [status = Alarm -> remainingTime = 0] hold in the initial state built
    from a fresh store, and from any store whose durations read back as
    integers between 0 and [MAX_SAFE_INTEGER].  Together with that
    property of the store and of the duration on display they are kept
    by toggle, tick, switchMode, skip, reset, openConfig, closeConfig,
    clearStats and a reload, and by [updateDuration] when it is called
    with a non-negative integer whose seconds do not exceed
    [MAX_SAFE_INTEGER].  Hence they hold in every state reached from
    such a store by these operations. *)
Theorem timeInv_invariant_exact :
  timeInv (state (mount ∅)) /\
  (forall ls, storeExact ls -> timeInv (state (mount ls))) /\
  (forall e a, eventExact e = true -> exactInv a -> exactInv (handle e a)) /\
  (forall e a, eventExact e = true -> exactInv a -> exactInv (step a e)) /\
  (forall es, forallb eventExact es = true -> timeInv (state (run ∅ es))) /\
  (forall ls es,
     storeExact ls -> forallb eventExact es = true -> exactInv (run ls es)).
Proof.
  split; [|split; [|split; [|split; [|split]]]].
  - apply (exactInv_mount ∅ storeExact_empty).
  - intros ls Hls. apply (exactInv_mount ls Hls).
  - apply exactInv_handle.
  - apply exactInv_step.
  - intros es Hes. unfold run.
    apply (exactInv_fold es (mount ∅) Hes (exactInv_mount ∅ storeExact_empty)).
  - intros ls es Hls Hes. unfold run.
    apply (exactInv_fold es (mount ls) Hes (exactInv_mount ls Hls)).
Qed.

(** C4, as the claim has it, fails.  The predicate is not kept by
    every call of [updateDuration]: it holds in the fresh initial state
    and fails after [updateDuration(-1)], which leaves [remainingTime]
    at -60.  Nor does it hold in every initial state: on a store whose
    focus duration is the text "-5" the first render has
    [remainingTime = -5], and on one that holds the text "Infinity" the
    duration and the remaining time are [NaN], which no comparison
    satisfies. *)
Lemma timeInv_counterexample :
  (timeInv (state (mount ∅)) /\
   ~ timeInv (state (updateDuration (JS.Num (-1)) (mount ∅)))) /\
  ~ timeInv (state (mount {[ "pomodoro_focus_duration" := "-5" ]})) /\
  ~ timeInv (state (mount {[ "pomodoro_focus_duration" := "Infinity" ]})).
Proof.
  split; [split |split].
  - apply (exactInv_mount ∅ storeExact_empty).
  - intros (H0 & _). vm_compute in H0. discriminate H0.
  - intros (H0 & _). vm_compute in H0. discriminate H0.
  - intros (H0 & _). vm_compute in H0. discriminate H0.
Qed.

Lemma timeInv_invariant_exact_witness :
  timeInv
    (state (run ∅ [EToggle; ETick; EOpenConfig; EUpdateDuration (JS.Num 0);
                   ESkip; ESkip; EToggle; ETick; EReload;
                   EUpdateDuration (JS.Num 150119987579016)])).
Proof.
  apply (proj1 (proj2 (proj2 (proj2 (proj2 timeInv_invariant_exact))))).
  vm_compute. reflexivity.
Defined.

(** ** The interface without the hidden mode *)

Lemma sessionRange_defaults (m : TimerMode) : sessionRange (DEFAULTS m) = true.
Proof. destruct m; reflexivity. Qed.

Lemma sessionRange_nonneg (n : JS.number) :
  sessionRange n = true -> JS.leb (JS.Num 0) n = true.
Proof.
  unfold sessionRange. intros H. apply andb_prop in H as [H _].
  destruct n as [z|]; [|discriminate H]. cbn in *. zbool.
Qed.

(** A whole number of minutes from 1 to 60 is shown and stored as
    between 60 and 3600 seconds. *)
Lemma minutes_updatesWithin (n : Z) :
  1 <= n <= 60 ->
  updatesWithin sessionRange (EUpdateDuration (JS.Num n)) = true.
Proof.
  intros Hn. cbn [updatesWithin JS.strictEq JS.mul].
  assert (H0 : (n =? 0) = false) by zbool. rewrite H0.
  unfold sessionRange. cbn [JS.leb].
  apply andb_true_intro. split; apply andb_true_intro; split; zbool.
Qed.

Lemma modal_bounds (m : TimerMode) :
  1 <= TimeInputModal.min m /\ TimeInputModal.max m <= 60.
Proof.
  destruct m.
  - change (TimeInputModal.min Focus) with 5.
    change (TimeInputModal.max Focus) with 60. lia.
  - change (TimeInputModal.min Break) with 1.
    change (TimeInputModal.max Break) with 30. lia.
Qed.

(** A reload, seen from the interface and as an event of the state
    machine. *)
Lemma core_reload (a : App) :
  core (mount (localStorage a)) = core (step a EReload).
Proof.
  unfold step. cbn [handle].
  unfold runEffects. case_decide; [reflexivity |].
  unfold core. cbn [state alerts persistStats storeItem].
  rewrite (persistStats_synced _ (statsSynced_mount _)).
  reflexivity.
Qed.

(** While the hidden mode is off, a step of the interface either leaves
    the core of the app alone or is a step of the state machine whose
    duration update, if it is one, is a whole number of minutes from 1
    to 60. *)
Lemma UI_step_locked (u : UI.Ui) (e : UI.UiEvent) :
  TimeInputModal.isEasterEggActive (UI.modal u) = false ->
  core (UI.app (UI.step u e)) = core (UI.app u) \/
  exists e' : Event,
    eventOk e' = true /\
    updatesWithin sessionRange e' = true /\
    core (UI.app (UI.step u e)) = core (step (UI.app u) e').
Proof.
  intros Hegg.
  unfold UI.step. destruct (UI.enabled e u); [|left; reflexivity].
  destruct e; cbn [UI.fire UI.onApp UI.onModal UI.openModal UI.app].
  - right. exists EToggle. repeat split.
  - right. exists EReset. repeat split.
  - right. exists ESkip. repeat split.
  - right. exists EOpenConfig. repeat split.
  - right. exists ECloseConfig. repeat split.
  - left. reflexivity.
  - right.
    exists (EUpdateDuration
              (JS.Num (ConfigDial.minutesForAngle
                         (mode (state (UI.app u))) degrees))).
    pose proof (minutesForAngle_bounds (mode (state (UI.app u))) degrees).
    pose proof (dial_bounds (mode (state (UI.app u)))).
    repeat split; [cbn; zbool |]. apply minutes_updatesWithin. lia.
  - left. reflexivity.
  - left. reflexivity.
  - unfold UI.submit.
    destruct (handleSubmit_cases onConfirm (mode (state (UI.app u)))
                (UI.modal u) (UI.app u))
      as [(n & [Hp Hb] & ->) | (_ & msg & ->)]; cbn [UI.app].
    + right. exists (EUpdateDuration (JS.Num n)).
      pose proof (modal_bounds (mode (state (UI.app u)))).
      rewrite Hegg in Hb.
      repeat split; [cbn; zbool | apply minutes_updatesWithin; lia |].
      unfold onConfirm, step. cbn [handle]. apply core_runEffects_modal.
    + left. now rewrite runEffects_same.
  - left. rewrite core_runEffects_modal. now rewrite runEffects_same.
  - right. exists EClearStats. repeat split.
  - right. exists ETick. repeat split.
  - right. exists EReload. repeat split. apply core_reload.
Qed.

Lemma lockedInv_core (a b : App) :
  core a = core b ->
  timeInv (state b) /\ durationsSatisfy sessionRange b ->
  timeInv (state a) /\ durationsSatisfy sessionRange a.
Proof.
  unfold core, durationsSatisfy. intros H. injection H as -> -> _. auto.
Qed.

Lemma lockedInv_step (a : App) (e : Event) :
  eventOk e = true -> updatesWithin sessionRange e = true ->
  timeInv (state a) /\ durationsSatisfy sessionRange a ->
  timeInv (state (step a e)) /\ durationsSatisfy sessionRange (step a e).
Proof.
  intros Hok He [Ht Hd]. split.
  - apply appInv_step; [exact Hok |]. split; [exact Ht |].
    intros m. apply sessionRange_nonneg, Hd.
  - now apply (durationsSatisfy_step sessionRange sessionRange_defaults).
Qed.

Lemma UI_locked_fold (es : list UI.UiEvent) (u : UI.Ui) :
  timeInv (state (UI.app u)) /\ durationsSatisfy sessionRange (UI.app u) ->
  (TimeInputModal.clickCount (UI.modal u) + titleClicks es < 6)%nat ->
  timeInv (state (UI.app (fold_left UI.step es u))) /\
  durationsSatisfy sessionRange (UI.app (fold_left UI.step es u)).
Proof.
  revert u. induction es as [|e es IH]; intros u Hu Hc; [exact Hu|].
  cbn [fold_left]. rewrite titleClicks_cons in Hc.
  pose proof (UI_clicks_step u e) as Hstep.
  apply IH; [|lia].
  assert (Hegg : TimeInputModal.isEasterEggActive (UI.modal u) = false)
    by (unfold TimeInputModal.isEasterEggActive; apply Nat.leb_gt; lia).
  destruct (UI_step_locked u e Hegg) as [H | (e' & Hok & He & H)].
  - exact (lockedInv_core _ _ H Hu).
  - apply (lockedInv_core _ _ H). now apply lockedInv_step.
Qed.

(** X13.  On a fresh store, through the rendered interface (buttons,
    dial at any angle, manual entry with any text, interval ticks,
    reloads; an event whose element is not rendered is ignored) and as
    long as the modal's title has been clicked fewer than six times in
    all, the timer keeps [0 <= remainingTime <= duration] with
    [remainingTime = 0] in an alarm, the duration on display is an
    integer between 60 and 3600 seconds, and so is every duration the
    store hands back: the dial and the bounded manual entry never give
    the state machine anything else. *)
Theorem UI_time_invariant (es : list UI.UiEvent) :
  (titleClicks es < 6)%nat ->
  timeInv (state (UI.app (UI.run ∅ es))) /\
  (exists d : Z,
     duration (state (UI.app (UI.run ∅ es))) = JS.Num d /\ 60 <= d <= 3600) /\
  (forall m, exists z : Z,
     getSavedDuration (localStorage (UI.app (UI.run ∅ es))) m = JS.Num z /\
     60 <= z <= 3600).
Proof.
  intros Hc.
  assert (H : timeInv (state (UI.app (UI.run ∅ es)))
              /\ durationsSatisfy sessionRange (UI.app (UI.run ∅ es))).
  { unfold UI.run. apply UI_locked_fold; [|exact Hc]. split.
    - apply (appInv_mount ∅ storeOk_empty).
    - apply (durationsSatisfy_mount sessionRange).
      intros m. destruct m; reflexivity. }
  destruct H as [Ht [Hd Hls]]. split; [exact Ht |].
  assert (Hrange : forall n, sessionRange n = true ->
                     exists z, n = JS.Num z /\ 60 <= z <= 3600).
  { intros n Hn. unfold sessionRange in Hn.
    apply andb_prop in Hn as [Hlo Hhi].
    destruct n as [z|]; [|discriminate Hlo]. cbn in Hlo, Hhi.
    exists z. split; [reflexivity |].
    apply Z.leb_le in Hlo, Hhi. lia. }
  split; [now apply Hrange | intros m; apply Hrange, Hls].
Qed.

Lemma UI_time_invariant_witness :
  exists d : Z,
    duration
      (state (UI.app (UI.run ∅ [UI.ClickSettings; UI.DialPointer (357 # 1);
                                UI.ClickTime; UI.ModalChange "7";
                                UI.ModalSubmit; UI.ClickToggle;
                                UI.IntervalTick])))
    = JS.Num d /\ 60 <= d <= 3600.
Proof.
  destruct (UI_time_invariant [UI.ClickSettings; UI.DialPointer (357 # 1);
                               UI.ClickTime; UI.ModalChange "7";
                               UI.ModalSubmit; UI.ClickToggle;
                               UI.IntervalTick])
    as (_ & H & _); [cbn [titleClicks]; lia | exact H].
Defined.

Lemma reload_restores_statistics_witness :
  statsDeps
    (state (run ∅ ([EUpdateDuration (JS.Num 0); EToggle; ETick] ++ [EReload])))
  = statsDeps (state (run ∅ [EUpdateDuration (JS.Num 0); EToggle; ETick])).
Proof.
  apply (reload_restores_statistics
           [EUpdateDuration (JS.Num 0); EToggle; ETick]);
    vm_compute; reflexivity.
Defined.
